(** * Indiana truck-parking dashboard (app.py): model and verified properties

    The dashboard is one Python script that Streamlit re-executes on every
    interaction.  This development embeds the parts of that script that
    carry logic of their own:

    - [PyStr]: Python [str] values, [re.sub(r"\D", "", s)] and [str.zfill];
    - [Session]: the two session fields and the click-processing phase
      (app.py lines 281-285, 313-321, 386-389);
    - [Frames]: a column-oriented data frame, the left merge, the numeric
      coercion loop and the [*_fmt] columns (lines 247-273);
    - [Hourly]: [hourly_long] and the CSV export (lines 329-353, 391-401);
    - [Diagnosis]: the categorical palette and [style_fn] (lines 104-117);
    - [Samples]: small tables and a runtime to evaluate the model on.

    Numbers are IEEE binary64 values (Rocq's primitive floats), as pandas
    holds them; a missing value is NaN. *)

From Stdlib Require Import ZArith NArith List String Ascii Bool Lia Floats.
From Stdlib Require Import DecimalString DecimalZ Sorted.
From stdpp Require Import gmap strings list.
Import ListNotations.

Local Open Scope N_scope.

(** ** Python strings *)

Module PyStr.

(** A Python [str] is a sequence of Unicode code points. *)
Definition char := N.
Definition str := list char.

(** ASCII literal of the script, as a [str]. *)
Definition U (s : string) : str :=
  List.map N_of_ascii (list_ascii_of_string s).

(** Code-point ranges of the Unicode decimal digits (general category Nd,
    Unicode 14.0), the characters that [\d] matches in a [str] pattern. *)
Definition decimal_ranges : list (N * N) :=
  [ (0x30, 0x39); (0x660, 0x669); (0x6f0, 0x6f9); (0x7c0, 0x7c9);
    (0x966, 0x96f); (0x9e6, 0x9ef); (0xa66, 0xa6f); (0xae6, 0xaef);
    (0xb66, 0xb6f); (0xbe6, 0xbef); (0xc66, 0xc6f); (0xce6, 0xcef);
    (0xd66, 0xd6f); (0xde6, 0xdef); (0xe50, 0xe59); (0xed0, 0xed9);
    (0xf20, 0xf29); (0x1040, 0x1049); (0x1090, 0x1099); (0x17e0, 0x17e9);
    (0x1810, 0x1819); (0x1946, 0x194f); (0x19d0, 0x19d9); (0x1a80, 0x1a89);
    (0x1a90, 0x1a99); (0x1b50, 0x1b59); (0x1bb0, 0x1bb9); (0x1c40, 0x1c49);
    (0x1c50, 0x1c59); (0xa620, 0xa629); (0xa8d0, 0xa8d9); (0xa900, 0xa909);
    (0xa9d0, 0xa9d9); (0xa9f0, 0xa9f9); (0xaa50, 0xaa59); (0xabf0, 0xabf9);
    (0xff10, 0xff19); (0x104a0, 0x104a9); (0x10d30, 0x10d39);
    (0x11066, 0x1106f); (0x110f0, 0x110f9); (0x11136, 0x1113f);
    (0x111d0, 0x111d9); (0x112f0, 0x112f9); (0x11450, 0x11459);
    (0x114d0, 0x114d9); (0x11650, 0x11659); (0x116c0, 0x116c9);
    (0x11730, 0x11739); (0x118e0, 0x118e9); (0x11950, 0x11959);
    (0x11c50, 0x11c59); (0x11d50, 0x11d59); (0x11da0, 0x11da9);
    (0x16a60, 0x16a69); (0x16ac0, 0x16ac9); (0x16b50, 0x16b59);
    (0x1d7ce, 0x1d7ff); (0x1e140, 0x1e149); (0x1e2f0, 0x1e2f9);
    (0x1e950, 0x1e959); (0x1fbf0, 0x1fbf9) ].

(** [\d] *)
Definition re_d (c : char) : bool :=
  existsb (fun r => (fst r <=? c) && (c <=? snd r)) decimal_ranges.

(** [\D]: any character that is not a decimal digit. *)
Definition re_D (c : char) : bool := negb (re_d c).

(** [re.sub(r"\D", "", raw)]: every match of [\D] (one character) is
    replaced by the empty string, the other characters are copied. *)
Fixpoint re_sub_D_empty (raw : str) : str :=
  match raw with
  | [] => []
  | c :: rest => (if re_D c then [] else [c]) ++ re_sub_D_empty rest
  end.

Definition zero_char : char := 0x30.
Definition is_sign (c : char) : bool := (c =? 0x2b) || (c =? 0x2d).

(** [s.zfill(width)]: [s] itself when it is already [width] long;
    otherwise ASCII zeros are put in front, after a leading [+] or [-]. *)
Definition zfill (width : nat) (s : str) : str :=
  let fill := (width - length s)%nat in
  match fill with
  | O => s
  | _ =>
      match s with
      | c :: rest =>
          if is_sign c then c :: repeat zero_char fill ++ rest
          else repeat zero_char fill ++ s
      | [] => repeat zero_char fill
      end
  end.

(** The wording of the specification: non-digit characters removed, the
    result left-padded with zeros to a given length. *)
Definition remove_non_digits (raw : str) : str := List.filter re_d raw.

Definition left_pad_zeros (width : nat) (s : str) : str :=
  repeat zero_char (width - length s) ++ s.

Definition all_digits (s : str) : Prop := Forall (fun c => re_d c = true) s.

End PyStr.

(** ** Selection state *)

Module Session.
Import PyStr.

(** The two fields the script keeps in [st.session_state]. *)
Record session := mkSession {
  selected_fips : option str;
  ignore_next_click : bool
}.

(** Lines 281-285: both keys are created on the first run. *)
Definition init_session : session := mkSession None false.

(** What [st_folium] returned: [None] stands for a falsy [map_state]
    (None or an empty dict); otherwise the value stored under
    ["last_object_clicked_popup"], which is [None] or a [str]. *)
Definition map_state := option (option str).

(** [map_state and map_state.get("last_object_clicked_popup")], as a
    truth value: the payload when it is a non-empty string. *)
Definition clicked_popup (ms : map_state) : option str :=
  match ms with
  | Some (Some (c :: rest)) => Some (c :: rest)
  | _ => None
  end.

(** Lines 315-316. *)
Definition sanitize (raw : str) : str := zfill 5 (re_sub_D_empty raw).

(** Lines 314-317. *)
Definition read_click (ms : map_state) (st : session) : session :=
  match clicked_popup ms with
  | Some raw =>
      if negb (ignore_next_click st)
      then mkSession (Some (sanitize raw)) (ignore_next_click st)
      else st
  | None => st
  end.

(** Lines 320-321. *)
Definition clear_guard (st : session) : session :=
  if ignore_next_click st then mkSession (selected_fips st) false else st.

(** One click-processing cycle: the read phase, then the guard reset. *)
Definition process_cycle (ms : map_state) (st : session) : session :=
  clear_guard (read_click ms st).

(** Lines 386-388: the body of the "Clear selection" button. *)
Definition clear_selection (st : session) : session :=
  mkSession None true.

(** One execution of the script as far as the session is concerned: the
    click-processing cycle, then the button.  [st.rerun()] (line 389)
    starts the next execution, which is the next [script_run]. *)
Definition script_run (ms : map_state) (clear_pressed : bool)
    (st : session) : session :=
  let st1 := process_cycle ms st in
  if clear_pressed then clear_selection st1 else st1.

(** The session after a sequence of executions. *)
Fixpoint run_all (inputs : list (map_state * bool)) (st : session) : session :=
  match inputs with
  | [] => st
  | (ms, b) :: rest => run_all rest (script_run ms b st)
  end.

End Session.

(** ** Data frames: the join, the numeric fill and the display columns *)

Module Frames.
Import PyStr.

(** What the pandas routines do to the last bit is not part of this
    model: the text-to-number parser, the two summation routines and the
    float formatter are the runtime's. *)
Class Runtime := {
  (** [pd.to_numeric] on one [str]; [None] when it does not parse. *)
  parse_number : str -> option float;
  (** [groupby(...).sum()] on the values of one group, in row order. *)
  group_sum : list float -> float;
  (** [Series.sum()] on a column without missing values. *)
  series_sum : list float -> float;
  (** The text [to_csv] writes for a float that is not NaN. *)
  float_repr : float -> str
}.

(** Python exceptions the modelled lines can raise. *)
Inductive exn := KeyError | MergeError | TypeError | IntCastingNaNError.

Inductive result (A : Type) :=
| Ok (a : A)
| Raise (e : exn).
Arguments Ok {A} a.
Arguments Raise {A} e.

#[global] Instance result_ret : MRet result := fun A a => Ok a.
#[global] Instance result_bind : MBind result := fun A B f r =>
  match r with
  | Ok a => f a
  | Raise e => Raise e
  end.

(** One entry of a column. *)
Inductive cell :=
| Num (x : float)   (* float64; NaN is the missing value *)
| Int (z : Z)       (* int64 *)
| Text (s : str)    (* a str in an object column *)
| Geom (g : N).     (* a geometry, opaque *)

Definition series := list cell.

Definition missing : cell := Num nan.

(** A DataFrame: its number of rows and its columns in order. *)
Record frame := mkFrame {
  nrows : nat;
  cols : list (string * series)
}.

Definition column_names (df : frame) : list string := List.map fst (cols df).

Definition name_in (c : string) (names : list string) : bool :=
  existsb (String.eqb c) names.

(** [c in df] *)
Definition has_column (c : string) (df : frame) : bool :=
  name_in c (column_names df).

Fixpoint lookup_col (c : string) (l : list (string * series)) : option series :=
  match l with
  | [] => None
  | (n, s) :: rest => if String.eqb n c then Some s else lookup_col c rest
  end.

Fixpoint replace_col (c : string) (s : series) (l : list (string * series))
    : list (string * series) :=
  match l with
  | [] => []
  | (n, old) :: rest =>
      if String.eqb n c then (n, s) :: rest else (n, old) :: replace_col c s rest
  end.

(** [df[c] = s]: the column is replaced in place, or appended. *)
Definition set_col (df : frame) (c : string) (s : series) : frame :=
  if has_column c df
  then mkFrame (nrows df) (replace_col c s (cols df))
  else mkFrame (nrows df) (cols df ++ [(c, s)]).

(** *** [counties.merge(daily, on="county_fips", how="left")] *)

Definition str_eqb (a b : str) : bool := bool_decide (a = b).

(** Equality of join keys.  Both key columns are read as [str], so a key
    is a [Text] or missing; missing keys match each other. *)
Definition key_eqb (a b : cell) : bool :=
  match a, b with
  | Text s, Text t => str_eqb s t
  | Int x, Int y => Z.eqb x y
  | Num x, Num y => (PrimFloat.is_nan x && PrimFloat.is_nan y) || PrimFloat.eqb x y
  | _, _ => false
  end.

(** Positions, counted from [i], of the right keys equal to [k]. *)
Fixpoint matching_rows (k : cell) (i : nat) (rkeys : series) : list nat :=
  match rkeys with
  | [] => []
  | r :: rest =>
      (if key_eqb k r then [i] else []) ++ matching_rows k (S i) rest
  end.

(** The row pairs of a left join, in the order of the left frame: a left
    row with no match is kept once, paired with nothing. *)
Fixpoint left_indexer (i : nat) (lkeys rkeys : series) : list (nat * option nat) :=
  match lkeys with
  | [] => []
  | k :: rest =>
      match matching_rows k 0 rkeys with
      | [] => [(i, None)]
      | js => List.map (fun j => (i, Some j)) js
      end ++ left_indexer (S i) rest rkeys
  end.

Definition take_left (ix : list (nat * option nat)) (s : series) : series :=
  List.map (fun p => nth (fst p) s missing) ix.

Definition take_right (ix : list (nat * option nat)) (s : series) : series :=
  List.map (fun p => match snd p with
                     | Some j => nth j s missing
                     | None => missing
                     end) ix.

(** The last character of a column name. *)
Fixpoint last_ascii (s : string) : option ascii :=
  match s with
  | EmptyString => None
  | String a rest =>
      match rest with
      | EmptyString => Some a
      | String _ _ => last_ascii rest
      end
  end.

Fixpoint unique_names (l : list string) : bool :=
  match l with
  | [] => true
  | n :: rest => negb (name_in n rest) && unique_names rest
  end.

(** The columns of the merge: the left columns, then the right columns
    without the key; a name on both sides gets the suffix [_x] or [_y]. *)
Definition merged_columns (left right : frame) (on : string)
    (ix : list (nat * option nat)) : list (string * series) :=
  List.map (fun c =>
         (if negb (String.eqb (fst c) on) && name_in (fst c) (column_names right)
          then (fst c ++ "_x")%string else fst c,
          take_left ix (snd c)))
      (cols left)
  ++
  List.map (fun c =>
         (if name_in (fst c) (column_names left)
          then (fst c ++ "_y")%string else fst c,
          take_right ix (snd c)))
      (List.filter (fun c => negb (String.eqb (fst c) on)) (cols right)).

(** A missing key column is a KeyError; suffixes that produce a column
    name twice are a MergeError. *)
Definition merge_left (left right : frame) (on : string) : result frame :=
  match lookup_col on (cols left), lookup_col on (cols right) with
  | Some lkeys, Some rkeys =>
      let ix := left_indexer 0 lkeys rkeys in
      let out := merged_columns left right on ix in
      if unique_names (List.map fst out)
      then Ok (mkFrame (length ix) out)
      else Raise MergeError
  | _, _ => Raise KeyError
  end.

(** *** Lines 249-252: numeric coercion of the daily columns *)

Definition key : string := "county_fips".

Definition num_cols (daily : frame) : list string :=
  List.filter (fun c => negb (name_in c ["diagnosis"; "county_fips"]%string))
    (column_names daily).

(** [pd.to_numeric(..., errors="coerce")] on one entry. *)
Definition to_numeric_coerce {RT : Runtime} (v : cell) : cell :=
  match v with
  | Num x => Num x
  | Int z => Int z
  | Text s => match parse_number s with
              | Some x => Num x
              | None => missing
              end
  | Geom _ => missing
  end.

(** [.fillna(0)] on one entry. *)
Definition fillna0 (v : cell) : cell :=
  match v with
  | Num x => if PrimFloat.is_nan x then Num 0%float else Num x
  | _ => v
  end.

Definition coerce_column {RT : Runtime} (g : frame) (c : string) : frame :=
  if has_column c g
  then match lookup_col c (cols g) with
       | Some s => set_col g c (List.map (fun v => fillna0 (to_numeric_coerce v)) s)
       | None => g
       end
  else g.

Definition fill_numeric {RT : Runtime} (cs : list string) (g : frame) : frame :=
  fold_left coerce_column cs g.

(** Lines 248-252. *)
Definition join_and_fill {RT : Runtime} (counties daily : frame) : result frame :=
  merged ← merge_left counties daily key;
  mret (fill_numeric (num_cols daily) merged).

(** *** Lines 255-273: the integer display columns *)

Definition fmt_targets : list string :=
  [ "max_hourly_des_demand";
    "max_hourly_undes_demand";
    "max_hourly_total_demand";
    "acc_des_demand";
    "acc_undes_demand";
    "acc_total_demand";
    "supply";
    "max_hourly_des_deficit";
    "max_hourly_total_deficit";
    "acc_des_deficit";
    "acc_total_deficit" ]%string.

(** [m / 2^k], rounded to the nearest integer, ties to even. *)
Definition div_pow2_half_even (m k : positive) : Z :=
  let d := (2 ^ Z.pos k)%Z in
  let q := (Z.pos m / d)%Z in
  let r := (Z.pos m mod d)%Z in
  let h := (d / 2)%Z in
  if (r <? h)%Z then q
  else if (h <? r)%Z then (q + 1)%Z
  else if Z.even q then q else (q + 1)%Z.

(** [round(0)] of a finite float, as an integer; [None] for an infinity
    or NaN. *)
Definition round_half_even (x : float) : option Z :=
  match Prim2SF x with
  | S754_zero _ => Some 0%Z
  | S754_finite s m e =>
      let a := match e with
               | Z0 => Z.pos m
               | Z.pos p => (Z.pos m * 2 ^ Z.pos p)%Z
               | Z.neg p => div_pow2_half_even m p
               end in
      Some (if s then (- a)%Z else a)
  | S754_infinity _ => None
  | S754_nan => None
  end.

(** The cast to int64 of an integral float.  Outside the int64 range the
    C conversion is not defined; the common x86-64 result is the least
    int64. *)
Definition int64_of (z : Z) : Z :=
  if ((- 2 ^ 63 <=? z) && (z <? 2 ^ 63))%Z then z else (- 2 ^ 63)%Z.

Definition is_numeric (v : cell) : bool :=
  match v with
  | Num _ | Int _ => true
  | Text _ | Geom _ => false
  end.

Definition is_finite (v : cell) : bool :=
  match v with
  | Num x => match round_half_even x with Some _ => true | None => false end
  | Int _ => true
  | Text _ | Geom _ => false
  end.

Definition rounded_int (v : cell) : cell :=
  match v with
  | Num x => match round_half_even x with
             | Some z => Int (int64_of z)
             | None => v
             end
  | _ => v
  end.

(** [s.round(0).astype(int)]: rounding needs a numeric column, and the
    cast refuses NaN and the infinities. *)
Definition round0_astype_int (s : series) : result series :=
  if forallb is_numeric s
  then if forallb is_finite s
       then Ok (List.map rounded_int s)
       else Raise IntCastingNaNError
  else Raise TypeError.

(** Lines 269-273, one display metric. *)
Definition add_fmt_column (g : frame) (col : string) : result frame :=
  let fmt_col := (col ++ "_fmt")%string in
  if has_column col g
  then match lookup_col col (cols g) with
       | Some s => ints ← round0_astype_int s; mret (set_col g fmt_col ints)
       | None => Raise KeyError
       end
  else Ok (set_col g fmt_col (repeat (Int 0) (nrows g))).

Fixpoint add_fmt_columns (targets : list string) (g : frame) : result frame :=
  match targets with
  | [] => Ok g
  | col :: rest => g' ← add_fmt_column g col; add_fmt_columns rest g'
  end.

(** Lines 248-273. *)
Definition join_stage {RT : Runtime} (counties daily : frame) : result frame :=
  filled ← join_and_fill counties daily;
  add_fmt_columns fmt_targets filled.

(** *** Vocabulary of the specification *)

(** A number that is present. *)
Definition filled_number (v : cell) : Prop :=
  match v with
  | Num x => PrimFloat.is_nan x = false
  | Int _ => True
  | Text _ | Geom _ => False
  end.

(** A number that is present and not below zero. *)
Definition nonneg_number (v : cell) : Prop :=
  match v with
  | Num x => PrimFloat.leb 0%float x = true
  | Int z => (0 <= z)%Z
  | Text _ | Geom _ => False
  end.

Definition negative_number (v : cell) : Prop :=
  match v with
  | Num x => PrimFloat.ltb x 0%float = true
  | Int z => (z < 0)%Z
  | Text _ | Geom _ => False
  end.

(** "Missing numeric values are coerced to zero; non-numeric parse
    failures also coerce to zero": every other entry keeps its number. *)
Definition zero_if_missing_or_unparsed {RT : Runtime} (v : cell) : cell :=
  match v with
  | Num x => if PrimFloat.is_nan x then Num 0%float else Num x
  | Int z => Int z
  | Text s => match parse_number s with
              | Some x => if PrimFloat.is_nan x then Num 0%float else Num x
              | None => Num 0%float
              end
  | Geom _ => Num 0%float
  end.


(** The key column of a left join: every left key in order, once per
    matching right row and once when there is none. *)
Definition left_join_keys (lkeys rkeys : series) : series :=
  flat_map (fun k => repeat k (Nat.max 1 (length (matching_rows k 0 rkeys)))) lkeys.


(** The statement that the join leaves no negative metric, whatever the
    inputs. *)
Definition metrics_nonneg_after_join {RT : Runtime} : Prop :=
  forall (counties daily g : frame) (c : string) (s : series),
    join_and_fill counties daily = Ok g ->
    In c (num_cols daily) ->
    lookup_col c (cols g) = Some s ->
    Forall nonneg_number s.

End Frames.

(** ** The hourly chart table and its CSV export *)

Module Hourly.
Import PyStr Frames.

(** A row of the frame [load_hourly] returns: the county as zero-filled
    text, the hour as an integer, three float columns without NaN. *)
Record hourly_row := mkHourly {
  h_county : str;
  h_hour : Z;
  h_des_demand : float;
  h_undes_demand : float;
  h_supply : float
}.

(** The two columns of [daily] that [hourly_long] reads: [county_fips]
    (text, missing where the CSV cell is blank) and [supply] as a float64
    column (NaN where blank). *)
Record daily_row := mkDaily {
  d_county_fips : cell;
  d_supply : float
}.

(** The rows above, read off the [daily] frame of the join stage when
    its supply column is a float column. *)
Definition daily_rows (daily : frame) : option (list daily_row) :=
  match lookup_col "county_fips" (cols daily), lookup_col "supply" (cols daily) with
  | Some ks, Some ss =>
      if forallb (fun v => match v with Num _ => true | _ => false end) ss
      then Some (List.map (fun p => mkDaily (fst p)
                                      (match snd p with Num x => x | _ => nan end))
                   (combine ks ss))
      else None
  | _, _ => None
  end.

(** [agg] after line 343, and the rows of [hourly_table]. *)
Record table_row := mkRow {
  t_hour : Z;
  t_des_demand : float;
  t_undes_demand : float;
  t_supply : float
}.

(** A row of [long_df]. *)
Record long_row := mkLong {
  l_hour : Z;
  l_type : str;
  l_value : float
}.

(** [if fips:] is taken for a non-empty string only. *)
Definition truthy (fips : option str) : option str :=
  match fips with
  | Some (c :: rest) => Some (c :: rest)
  | _ => None
  end.

(** [column == fips] on one entry. *)
Definition cell_is (fips : str) (v : cell) : bool :=
  match v with
  | Text s => str_eqb s fips
  | _ => false
  end.

Definition fillna0_float (x : float) : float :=
  if PrimFloat.is_nan x then 0%float else x.

Definition float_max (a b : float) : float :=
  if PrimFloat.ltb a b then b else a.

(** [Series.max()]: missing values are skipped, and the maximum of
    nothing is NaN. *)
Definition series_max (xs : list float) : float :=
  match List.filter (fun x => negb (PrimFloat.is_nan x)) xs with
  | [] => nan
  | x :: rest => fold_left float_max rest x
  end.

(** Line 334: [daily.loc[daily["county_fips"] == fips, "supply"]]. *)
Definition county_supplies (daily : list daily_row) (fips : str) : list float :=
  List.map d_supply (List.filter (fun r => cell_is fips (d_county_fips r)) daily).

(** Lines 334 and 339. *)
Definition supply_const {RT : Runtime} (daily : list daily_row) (fips : option str)
    : float :=
  match truthy fips with
  | Some f => series_max (List.map fillna0_float (county_supplies daily f))
  | None => series_sum (List.map fillna0_float (List.map d_supply daily))
  end.

(** Lines 331 and 336. *)
Definition sub_frame (df_hourly : list hourly_row) (fips : option str)
    : list hourly_row :=
  match truthy fips with
  | Some f => List.filter (fun r => str_eqb (h_county r) f) df_hourly
  | None => df_hourly
  end.

(** The group keys of [groupby("hour")]: each hour once, ascending. *)
Fixpoint insert_hour (h : Z) (hs : list Z) : list Z :=
  match hs with
  | [] => [h]
  | x :: rest =>
      if (h <? x)%Z then h :: hs
      else if (h =? x)%Z then hs
      else x :: insert_hour h rest
  end.

Definition group_hours (sub : list hourly_row) : list Z :=
  fold_right insert_hour [] (List.map h_hour sub).

Definition rows_of_hour (h : Z) (sub : list hourly_row) : list hourly_row :=
  List.filter (fun r => (h_hour r =? h)%Z) sub.

(** Lines 342-343: one row per group with the two sums, then the
    constant supply column. *)
Definition aggregate {RT : Runtime} (sub : list hourly_row) (supply : float)
    : list table_row :=
  List.map (fun h =>
         mkRow h
           (group_sum (List.map h_des_demand (rows_of_hour h sub)))
           (group_sum (List.map h_undes_demand (rows_of_hour h sub)))
           supply)
      (group_hours sub).

(** Lines 346-350: [melt] stacks the two demand columns under the hour;
    the long form has the columns hour, type and value only, so the
    supply column is not carried over. *)
Definition melt (agg : list table_row) : list long_row :=
  List.map (fun r => mkLong (t_hour r) (U "des_demand") (t_des_demand r)) agg
  ++ List.map (fun r => mkLong (t_hour r) (U "undes_demand") (t_undes_demand r)) agg.

(** Line 351: [.replace({"type": {...}})]. *)
Definition replace_type (r : long_row) : long_row :=
  if str_eqb (l_type r) (U "des_demand")
  then mkLong (l_hour r) (U "Designated") (l_value r)
  else if str_eqb (l_type r) (U "undes_demand")
  then mkLong (l_hour r) (U "Undesignated") (l_value r)
  else r.

Fixpoint insert_long (r : long_row) (l : list long_row) : list long_row :=
  match l with
  | [] => [r]
  | x :: rest =>
      if (l_hour r <=? l_hour x)%Z then r :: l else x :: insert_long r rest
  end.

(** [sort_values("hour")], here as a stable sort (pandas' default sort
    does not promise the order of the two series within one hour). *)
Definition sort_by_hour (l : list long_row) : list long_row :=
  fold_right insert_long [] l.

(** Line 332, with the dict of line 324. *)
Definition title_of (fips_to_name : gmap str str) (fips : option str) : str :=
  match truthy fips with
  | Some f => default (U "County " ++ f) (fips_to_name !! f)
  | None => U "Indiana (statewide)"
  end.

(** Lines 329-353. *)
Definition hourly_long {RT : Runtime} (daily : list daily_row)
    (fips_to_name : gmap str str) (df_hourly : list hourly_row)
    (fips : option str) : str * list long_row * list table_row :=
  let sub := sub_frame df_hourly fips in
  let title := title_of fips_to_name fips in
  let agg := aggregate sub (supply_const daily fips) in
  (title, sort_by_hour (List.map replace_type (melt agg)), agg).

(** The column selection of line 353. *)
Definition hourly_table_columns : list string :=
  ["hour"; "des_demand"; "undes_demand"; "supply"]%string.

Definition int_repr (z : Z) : str := U (NilZero.string_of_int (Z.to_int z)).

(** A float in [to_csv]: a missing value is written as the empty text. *)
Definition csv_float {RT : Runtime} (x : float) : str :=
  if PrimFloat.is_nan x then [] else float_repr x.

Definition csv_field {RT : Runtime} (r : table_row) (c : string) : str :=
  if String.eqb c "hour" then int_repr (t_hour r)
  else if String.eqb c "des_demand" then csv_float (t_des_demand r)
  else if String.eqb c "undes_demand" then csv_float (t_undes_demand r)
  else if String.eqb c "supply" then csv_float (t_supply r)
  else [].

(** [to_csv(index=False)] as records of fields: the header, then one
    record per row.  The text joins the fields of a record with commas and
    ends each record with a line break. *)
Definition to_csv {RT : Runtime} (columns : list string) (rows : list table_row)
    : list (list str) :=
  List.map U columns :: List.map (fun r => List.map (csv_field r) columns) rows.

Fixpoint join_fields (fields : list str) : str :=
  match fields with
  | [] => []
  | [f] => f
  | f :: rest => f ++ U "," ++ join_fields rest
  end.

Definition csv_text (records : list (list str)) : str :=
  concat (List.map (fun fields => join_fields fields ++ [0xa]) records).

(** Lines 355 and 393: the download is made from the third component of
    [hourly_long] for the current selection. *)
Definition download_csv {RT : Runtime} (daily : list daily_row)
    (fips_to_name : gmap str str) (hourly : list hourly_row)
    (selected : option str) : list (list str) :=
  to_csv hourly_table_columns (snd (hourly_long daily fips_to_name hourly selected)).

End Hourly.

(** ** The categorical diagnosis map *)

Module Diagnosis.
Import PyStr.

(** A property value of a GeoJSON feature. *)
Inductive json :=
| JNull
| JStr (s : str)
| JNum (x : float)
| JBool (b : bool).

Definition near_capacity : str :=
  U "Designated demand near supply capacity (" ++ [0x2265] ++ U "85%)".
Definition overflow_undesignated : str :=
  U "Enough for designated; overflow in undesignated (total > supply)".
Definition consistent_undesignated : str :=
  U "Enough for demand; consistent undesignated observed (total "
  ++ [0x2264] ++ U " supply)".
Definition no_overflow : str := U "No overflow observed".

(** Lines 106-111. *)
Definition default_palette : gmap str str :=
  <[ near_capacity := U "#f03b20" ]>
  (<[ overflow_undesignated := U "#fd8d3c" ]>
  (<[ consistent_undesignated := U "#feb24c" ]>
  (<[ no_overflow := U "#74c476" ]> ∅))).

Definition fallback_gray : str := U "#8c8c8c".

(** The dict [style_fn] returns. *)
Record style := mkStyle {
  fillColor : str;
  color : str;
  weight : float;
  fillOpacity : float
}.

(** [palette.get(cat, "#8c8c8c")]: the keys are strings, so only a string
    can be found. *)
Definition palette_get (palette : gmap str str) (cat : option json) : str :=
  match cat with
  | Some (JStr s) => default fallback_gray (palette !! s)
  | _ => fallback_gray
  end.

(** Lines 104-117: the palette argument defaults to the four labels, and
    [style_fn] reads the category of a feature from its properties
    ([.get(category_col, None)]; a JSON null is None as well). *)
Definition style_fn (palette : option (gmap str str)) (category_col : string)
    (properties : gmap string json) : style :=
  let palette := default default_palette palette in
  let cat := properties !! category_col in
  mkStyle (palette_get palette cat) (U "#555")
    0x1.999999999999ap-1%float 0x1.999999999999ap-1%float.

End Diagnosis.

(** ** Concrete inputs used to run the model *)

Module Samples.
Import PyStr Frames Hourly.

Definition digit_value (c : char) : Z := Z.of_N (c - 0x30).

Definition is_ascii_digit (c : char) : bool := (0x30 <=? c) && (c <=? 0x39).

(** A runtime to evaluate the model with: unsigned decimal integers are
    the texts that parse, sums accumulate from left to right, and a float
    is written exactly, as its integer mantissa and binary exponent. *)
Definition simple_runtime : Runtime := {|
  parse_number := fun s =>
    match s with
    | [] => None
    | _ => if forallb is_ascii_digit s
           then Some (PrimFloat.of_uint63
                        (Uint63.of_Z
                           (fold_left (fun a c => (10 * a + digit_value c)%Z) s 0%Z)))
           else None
    end;
  group_sum := fun xs => fold_left PrimFloat.add xs 0%float;
  series_sum := fun xs => fold_left PrimFloat.add xs 0%float;
  float_repr := fun x =>
    match Prim2SF x with
    | S754_zero _ => U "0"
    | S754_finite sign m e =>
        (if sign then U "-" else []) ++ int_repr (Z.pos m) ++ U "p" ++ int_repr e
    | S754_infinity sign => (if sign then U "-" else []) ++ U "inf"
    | S754_nan => U "nan"
    end
|}.

(** Two counties; only the first has a row of daily metrics. *)
Definition two_counties : frame :=
  mkFrame 2
    [ ("county_fips"%string, [Text (U "18097"); Text (U "18001")]);
      ("county_name"%string, [Text (U "Marion"); Text (U "Adams")]);
      ("geometry"%string, [Geom 1; Geom 2]) ].

Definition daily_of (supply acc : cell) : frame :=
  mkFrame 1
    [ ("county_fips"%string, [Text (U "18097")]);
      ("supply"%string, [supply]);
      ("acc_des_demand"%string, [acc]);
      ("diagnosis"%string, [Text (U "No overflow observed")]) ].

Definition daily_plain : frame :=
  daily_of (Num 12%float) (Text (U "n/a")).

Definition daily_negative : frame :=
  daily_of (Num (-1)%float) (Num 3%float).


(** The table after lines 248-252 for a [daily_of supply acc] whose two
    entries are already filled. *)
Definition filled_of (supply acc : cell) : frame :=
  mkFrame 2
    [ ("county_fips"%string, [Text (U "18097"); Text (U "18001")]);
      ("county_name"%string, [Text (U "Marion"); Text (U "Adams")]);
      ("geometry"%string, [Geom 1; Geom 2]);
      ("supply"%string, [supply; Num 0%float]);
      ("acc_des_demand"%string, [acc; Num 0%float]);
      ("diagnosis"%string, [Text (U "No overflow observed"); Num nan]) ].

(** Hourly rows of two counties, and a daily table that knows only the
    first of them. *)
Definition hourly_sample : list hourly_row :=
  [ mkHourly (U "18097") 3 1%float 2%float 5%float;
    mkHourly (U "18097") 1 1%float 2.5%float 5%float;
    mkHourly (U "18001") 1 4%float 2%float 7%float;
    mkHourly (U "18097") 3 10%float 20%float 5%float ].

Definition daily_sample : list daily_row :=
  [ mkDaily (Text (U "18097")) 5%float ].

End Samples.

(** ** The password prompt *)

Module Auth.
Import PyStr Frames.

(** The two keys [require_password] keeps in [st.session_state]; a key
    that is not there is [None]. *)
Record auth_state := mkAuth {
  authed : option bool;
  pw_input : option str
}.

Definition new_session : auth_state := mkAuth None None.

(** Lines 14-19: the callback of the text input. *)
Definition _check (secret : str) (st : auth_state) : auth_state :=
  if str_eqb (default [] (pw_input st)) secret
  then mkAuth (Some true) None
  else mkAuth (Some false) (pw_input st).

(** What one execution of the script shows: the rest of the page, or the
    prompt (with or without the error line) and nothing after it. *)
Inductive page :=
| Rendered
| Stopped (error_shown : bool).

(** Lines 21-25.  A text input that is shown keeps its value under its
    key, the empty text at first. *)
Definition require_password (st : auth_state) : page * auth_state :=
  let locked := match authed st with
                | None => true
                | Some b => negb b
                end in
  if locked
  then (Stopped (match authed st with
                 | Some false => true
                 | _ => false
                 end),
        mkAuth (authed st) (Some (default [] (pw_input st))))
  else (Rendered, st).

(** The visitor types [typed] into the prompt: the widget stores it, the
    callback runs, and the script is executed again.  Without a prompt on
    the page there is nothing to type into. *)
Definition attempt (secret : str) (shown : page * auth_state) (typed : str)
    : page * auth_state :=
  match fst shown with
  | Rendered => shown
  | Stopped _ =>
      require_password (_check secret (mkAuth (authed (snd shown)) (Some typed)))
  end.

(** A visit: the first execution, then one execution per entry typed. *)
Definition visit (secret : str) (typed : list str) : page * auth_state :=
  fold_left (attempt secret) typed (require_password new_session).

End Auth.

(** ** The rest of the page: tooltip, titles, chart rows *)

Module Page.
Import PyStr Frames Hourly.

(** Lines 135-150: alias and column of every tooltip line. *)
Definition tooltip_fields : list (string * string) :=
  [ ("County", "county_name");
    ("FIPS", "county_fips");
    ("Max hourly des. demand", "max_hourly_des_demand_fmt");
    ("Max hourly undes. demand", "max_hourly_undes_demand_fmt");
    ("Max hourly total demand", "max_hourly_total_demand_fmt");
    ("Acc. des. demand (truck-hrs)", "acc_des_demand_fmt");
    ("Acc. undes. demand (truck-hrs)", "acc_undes_demand_fmt");
    ("Acc. total demand (truck-hrs)", "acc_total_demand_fmt");
    ("Supply (hourly fixed)", "supply_fmt");
    ("Max hourly des. deficit", "max_hourly_des_deficit_fmt");
    ("Max hourly total deficit", "max_hourly_total_deficit_fmt");
    ("Acc. des. deficit (truck-hrs)", "acc_des_deficit_fmt");
    ("Acc. total deficit (truck-hrs)", "acc_total_deficit_fmt");
    ("Diagnosis", "diagnosis") ]%string.

(** Line 180. *)
Definition popup_fields : list string := ["county_fips"]%string.

(** Lines 132-181: folium renders a tooltip or a popup only when each of
    its fields is a column of the data; otherwise its assertion fails. *)
Definition attach_tooltip_and_popup (gdf_joined : frame) : bool :=
  forallb (fun f => has_column f gdf_joined) (List.map snd tooltip_fields)
  && forallb (fun f => has_column f gdf_joined) popup_fields.

(** Line 324: [dict(zip(keys, names))] over the identifier and the name
    of every row, both as text; a later row replaces an earlier one with
    the same identifier. *)
Definition fips_to_name (rows : list (str * str)) : gmap str str :=
  fold_left (fun d row => <[ fst row := snd row ]> d) rows ∅.

(** Lines 394-395. *)
Definition download_label (selected_fips : option str) (title : str) : str :=
  match selected_fips with
  | None => U "Download hourly demand (statewide)"
  | Some _ => U "Download hourly demand (" ++ title ++ U ")"
  end.

(** Line 359: [.map({"Designated": 0, "Undesignated": 1})]; a type that is
    no key of the dict gets no order. *)
Definition type_order (type : str) : option Z :=
  if str_eqb type (U "Designated") then Some 0%Z
  else if str_eqb type (U "Undesignated") then Some 1%Z
  else None.

(** Lines 355-359, 393-395: what the chart column computes from the
    session's selection. *)
Record chart_column := mkChart {
  chart_title : str;
  bars_long : list (long_row * option Z);
  hourly_table : list table_row;
  csv_label : str
}.

Definition chart_of {RT : Runtime} (daily : list daily_row)
    (names : gmap str str) (hourly : list hourly_row)
    (selected_fips : option str) : chart_column :=
  let result := hourly_long daily names hourly selected_fips in
  let title := fst (fst result) in
  mkChart title
    (List.map (fun r => (r, type_order (l_type r))) (snd (fst result)))
    (snd result)
    (download_label selected_fips title).

(** A selection the page can hold: none, or at least five digits. *)
Definition selection_ok (selected_fips : option str) : Prop :=
  match selected_fips with
  | None => True
  | Some s => (5 <= length s)%nat /\ all_digits s
  end.

End Page.

(** ** The overlays and the layers of the map *)

Module Overlays.
Import PyStr Frames.

Inductive geometry_type :=
| Point
| MultiPoint
| LineString
| MultiLineString
| LinearRing
| Polygon
| MultiPolygon
| GeometryCollection.

(** A geometry as the overlay code looks at it: its type, whether it is
    empty (an empty geometry is falsy), and the coordinates of a point. *)
Record geometry := mkGeometry {
  geom_type : geometry_type;
  is_empty : bool;
  x : float;
  y : float
}.

(** The rows of an overlay table: the geometry of each, [None] where it
    is missing. *)
Definition overlay := list (option geometry).

(** [path.exists()] and [gpd.read_file(path).to_crs(epsg=4326)]: the
    table, or the exception raised on the way. *)
Inductive file_state :=
| NotFound
| ReadRaises (e : str)
| Read (rows : overlay).

(** A path as the messages print it: [str(path)] and [path.name]. *)
Record file_path := mkPath {
  path_str : str;
  path_name : str
}.

Definition is_point (r : option geometry) : bool :=
  match r with
  | Some g => match geom_type g with Point => true | _ => false end
  | None => false
  end.


(** Lines 65-74. *)
Definition load_spots (path : file_path) (f : file_state)
    : option overlay * option str :=
  match f with
  | NotFound => (None, Some (U "Spots file not found: " ++ path_str path))
  | Read rows => (Some (List.filter is_point rows), None)
  | ReadRaises e =>
      (None, Some (U "Could not read truck spots (" ++ path_name path
                   ++ U "): " ++ e))
  end.


(** What a feature group holds. *)
Inductive child :=
| GeoJsonLines (rows : overlay)
| CircleMarker (lat lon : float).

(** The children of the folium map, in the order they were added. *)
Inductive layer :=
| Choropleth (color_col : string) (legend_name : str)
| DiagnosisGeoJson
| CountiesGeoJson
| FeatureGroup (name : str) (children : list child)
| LayerControl.

(** Lines 183-194. *)
Definition add_roadways_layer (m : list layer) (road_gdf : option overlay)
    : list layer :=
  match road_gdf with
  | None => m
  | Some [] => m
  | Some rows => m ++ [FeatureGroup (U "Roadways") [GeoJsonLines rows]]
  end.

(** Lines 201-210: one marker per row whose geometry is a point that is
    not empty, at latitude [y] and longitude [x]. *)
Definition spot_markers (rows : overlay) : list child :=
  flat_map (fun r =>
              match r with
              | Some geom =>
                  if negb (is_empty geom)
                     && match geom_type geom with Point => true | _ => false end
                  then [CircleMarker (y geom) (x geom)]
                  else []
              | None => []
              end) rows.

(** Lines 196-211. *)
Definition add_truck_spots_layer (m : list layer) (spots_gdf : option overlay)
    : list layer :=
  match spots_gdf with
  | None => m
  | Some [] => m
  | Some rows => m ++ [FeatureGroup (U "Truck parking spots") (spot_markers rows)]
  end.

(** Lines 217-229. *)
Definition metric_label_to_key : list (str * string) :=
  [ (U "Max hourly designated demand", "max_hourly_des_demand");
    (U "Max hourly undesignated demand", "max_hourly_undes_demand");
    (U "Max hourly total demand", "max_hourly_total_demand");
    (U "Acc. designated demand (truck-hours)", "acc_des_demand");
    (U "Acc. undesignated demand (truck-hours)", "acc_undes_demand");
    (U "Acc. total demand (truck-hours)", "acc_total_demand");
    (U "Supply (hourly fixed)", "supply");
    (U "Max hourly designated deficit", "max_hourly_des_deficit");
    (U "Max hourly total deficit", "max_hourly_total_deficit");
    (U "Acc. designated deficit (truck-hours)", "acc_des_deficit");
    (U "Acc. total deficit (truck-hours)", "acc_total_deficit") ]%string.

(** Line 230. *)
Definition labels_numeric : list str := List.map fst metric_label_to_key.

(** Line 235: the options of the selector. *)
Definition selector_options : list str := U "Diagnosis" :: labels_numeric.

(** [metric_label_to_key[label]]; [None] is the KeyError. *)
Fixpoint key_of_label (label : str) (d : list (str * string)) : option string :=
  match d with
  | [] => None
  | (l, k) :: rest => if str_eqb l label then Some k else key_of_label label rest
  end.

(** Lines 89-102: [folium.Choropleth] is given the joined table and
    [columns=["county_fips", color_col]]; it indexes the table by the
    first and reads the second, a KeyError when one of them is not a
    column of the table. *)
Definition make_numeric_choropleth (gdf_joined : frame) (color_col : string)
    (legend_label : str) : result layer :=
  if has_column "county_fips" gdf_joined && has_column color_col gdf_joined
  then Ok (Choropleth color_col legend_label)
  else Raise KeyError.

(** Lines 104-120: [style_fn] reads the category with [.get], so the
    layer is made whatever the columns of the table. *)
Definition make_categorical_map (gdf_joined : frame) : result layer :=
  Ok DiagnosisGeoJson.

(** Lines 291-298; [metric_label_to_key[...]] raises a KeyError on a
    label that is not a key. *)
Definition base_layer (gdf_joined : frame) (map_metric_label : str)
    : result layer :=
  if str_eqb map_metric_label (U "Diagnosis")
  then make_categorical_map gdf_joined
  else match key_of_label map_metric_label metric_label_to_key with
       | Some color_col =>
           make_numeric_choropleth gdf_joined color_col map_metric_label
       | None => Raise KeyError
       end.

(** Lines 290-307: the map object with all its layers, before it is
    handed to [st_folium]. *)
Definition page_map (gdf_joined : frame) (map_metric_label : str)
    (road_gdf spots_gdf : option overlay) : result (list layer) :=
  base ← base_layer gdf_joined map_metric_label;
  mret (add_truck_spots_layer
          (add_roadways_layer [base; CountiesGeoJson] road_gdf) spots_gdf
        ++ [LayerControl]).

(** Lines 276-279: a notice for each message that is not empty. *)
Definition notices (spots_err road_err : option str) : list str :=
  match spots_err with
  | Some (c :: rest) => [c :: rest]
  | _ => []
  end
  ++
  match road_err with
  | Some (c :: rest) => [c :: rest]
  | _ => []
  end.

End Overlays.

(** ** The loaders of the county and hourly tables *)

Module Loaders.
Import PyStr Frames Hourly.

(** What makes a loader raise. *)
Inductive load_error :=
| MissingColumn (label : string)          (* KeyError *)
| LengthMismatch (columns names : nat)    (* ValueError of [df.columns = ...] *)
| NotAnInteger.                           (* the error of [astype(int)] *)

Inductive loaded (A : Type) :=
| Loaded (a : A)
| Fails (e : load_error).
Arguments Loaded {A} a.
Arguments Fails {A} e.

(** [s.strip()] and [s.lower()] on a column name written in ASCII. *)
Definition is_space (a : ascii) : bool :=
  let n := nat_of_ascii a in
  ((9 <=? n)%nat && (n <=? 13)%nat) || ((28 <=? n)%nat && (n <=? 32)%nat).

Definition lower_ascii (a : ascii) : ascii :=
  let n := nat_of_ascii a in
  if ((65 <=? n)%nat && (n <=? 90)%nat) then ascii_of_nat (n + 32) else a.

Fixpoint lstrip (l : list ascii) : list ascii :=
  match l with
  | a :: rest => if is_space a then lstrip rest else l
  | [] => []
  end.

Definition strip_lower (s : string) : string :=
  string_of_list_ascii
    (List.map lower_ascii
       (rev (lstrip (rev (lstrip (list_ascii_of_string s)))))).

(** [isna] on one entry. *)
Definition isna (v : cell) : bool :=
  match v with
  | Num x => PrimFloat.is_nan x
  | _ => false
  end.

Section Conversions.

(** The two casts of pandas on one entry that is present:
    [astype(str)], and [astype(int)] with [None] where it raises. *)
Variable astype_str : cell -> str.
Variable astype_int : cell -> option Z.
Context {RT : Runtime}.

(** [.astype(str).str.zfill(5)] on one entry.  A missing entry stays
    missing: the cast to text keeps it, and the string method passes it
    through. *)
Definition zfill_entry (v : cell) : cell :=
  if isna v then missing else Text (zfill 5 (astype_str v)).

Definition zfill_column (s : series) : series :=
  List.map zfill_entry s.

(** Lines 46-49. *)
Definition load_counties (gdf : frame) : loaded frame :=
  match lookup_col "county_fips" (cols gdf) with
  | Some s => Loaded (set_col gdf "county_fips" (zfill_column s))
  | None => Fails (MissingColumn "county_fips")
  end.

(** [df.drop(columns={label})] *)
Definition drop_column (label : string) (df : frame) : loaded frame :=
  if has_column label df
  then Loaded (mkFrame (nrows df)
                 (List.filter (fun c => negb (String.eqb (fst c) label)) (cols df)))
  else Fails (MissingColumn label).

(** [df.columns = names] *)
Definition set_columns (names : list string) (df : frame) : loaded frame :=
  if Nat.eqb (length names) (length (cols df))
  then Loaded (mkFrame (nrows df) (combine names (List.map snd (cols df))))
  else Fails (LengthMismatch (length (cols df)) (length names)).

(** [df[c] = f(df[c])] on a column that has to be there. *)
Definition update_column (c : string) (f : series -> loaded series) (df : frame)
    : loaded frame :=
  match lookup_col c (cols df) with
  | Some s => match f s with
              | Loaded s' => Loaded (set_col df c s')
              | Fails e => Fails e
              end
  | None => Fails (MissingColumn c)
  end.

Definition then_load {A B : Type} (r : loaded A) (k : A -> loaded B) : loaded B :=
  match r with
  | Loaded a => k a
  | Fails e => Fails e
  end.

(** Line 59. *)
Definition hour_column (s : series) : loaded series :=
  match mapM astype_int s with
  | Some zs => Loaded (List.map Int zs)
  | None => Fails NotAnInteger
  end.

(** Line 61. *)
Definition numeric_column (s : series) : loaded series :=
  Loaded (List.map (fun v => fillna0 (to_numeric_coerce v)) s).

(** Line 56. *)
Definition hourly_names : list string :=
  ["county"; "hour"; "des_demand"; "undes_demand"; "supply"]%string.

(** Lines 52-62. *)
Definition load_hourly (raw : frame) : loaded frame :=
  then_load (drop_column "county_name" raw) (fun df =>
  then_load (set_columns hourly_names df) (fun df =>
  let df := mkFrame (nrows df)
              (List.map (fun c => (strip_lower (fst c), snd c)) (cols df)) in
  then_load (update_column "county" (fun s => Loaded (zfill_column s)) df) (fun df =>
  then_load (update_column "hour" hour_column df) (fun df =>
  then_load (update_column "des_demand" numeric_column df) (fun df =>
  then_load (update_column "undes_demand" numeric_column df) (fun df =>
  update_column "supply" numeric_column df)))))).

End Conversions.

(** The columns of a raw hourly table other than [county_name]. *)
Definition other_columns (raw : frame) : list (string * series) :=
  List.filter (fun c => negb (String.eqb (fst c) "county_name")) (cols raw).

End Loaders.

(** ** Reading the export back *)

Module CsvReader.
Import PyStr Frames Hourly.

(** [s.split(sep)] *)
Fixpoint split_on (sep : char) (s : str) : list str :=
  match s with
  | [] => [[]]
  | c :: rest =>
      if N.eqb c sep then [] :: split_on sep rest
      else match split_on sep rest with
           | [] => [[c]]
           | field :: fields => (c :: field) :: fields
           end
  end.

(** The records of a CSV text without quoted fields: every record ends
    with a line break and its fields are separated by commas. *)
Definition read_records (text : str) : option (list (list str)) :=
  let pieces := split_on 0xa text in
  match List.last pieces [0xa] with
  | [] => Some (List.map (split_on 0x2c) (List.removelast pieces))
  | _ => None
  end.

(** [int(s)] on an ASCII decimal text. *)
Definition read_int (s : str) : option Z :=
  if forallb (fun c => c <? 256) s
  then option_map Z.of_int
         (NilZero.int_of_string (string_of_list_ascii (List.map ascii_of_N s)))
  else None.

(** A float column of the table as a reader of the export sees it: a
    value, or nothing where the value is missing. *)
Definition present (x : float) : option float :=
  if PrimFloat.is_nan x then None else Some x.

Section Reader.
(** [float(s)] *)
Variable read_float : str -> option float.

(** An empty field is a missing value. *)
Definition read_field (s : str) : option (option float) :=
  match s with
  | [] => Some None
  | _ => option_map Some (read_float s)
  end.

Definition read_row (fields : list str)
    : option (Z * option float * option float * option float) :=
  match fields with
  | [hour; des; undes; supply] =>
      match read_int hour, read_field des, read_field undes, read_field supply with
      | Some h, Some d, Some u, Some s => Some (h, d, u, s)
      | _, _, _, _ => None
      end
  | _ => None
  end.

(** The header and the rows of the export, read back from its text. *)
Definition read_hourly_csv (text : str)
    : option (list str * list (Z * option float * option float * option float)) :=
  match read_records text with
  | Some (header :: records) =>
      option_map (fun rows => (header, rows)) (mapM read_row records)
  | _ => None
  end.

(** The float formatter writes a float that is not NaN as a text without
    separators from which the reader gets the same float back, as the
    shortest round-trip [repr] that [to_csv] uses does. *)
Definition exact_formatter {RT : Runtime} : Prop :=
  forall x, PrimFloat.is_nan x = false ->
    read_float (float_repr x) = Some x
    /\ float_repr x <> []
    /\ Forall (fun c => c <> 0x2c /\ c <> 0xa) (float_repr x).

End Reader.

End CsvReader.

(** ** More inputs to run the model on *)

Module MoreSamples.
Import PyStr Frames Hourly.

(** A daily table that brings county names of its own. *)
Definition daily_named : frame :=
  mkFrame 1
    [ ("county_fips"%string, [Text (U "18097")]);
      ("county_name"%string, [Text (U "Marion")]);
      ("supply"%string, [Num 12%float]) ].

(** Sample casts: the text itself and the decimal text of an integer
    for [astype(str)]; the integer itself and the integral part of a
    finite float for [astype(int)]. *)
Definition str_of_cell (v : cell) : str :=
  match v with
  | Text s => s
  | Int z => int_repr z
  | Num x => float_repr (Runtime := Samples.simple_runtime) x
  | Geom _ => U "GEOMETRY"
  end.

Definition int_of_cell (v : cell) : option Z :=
  match v with
  | Int z => Some z
  | Num x =>
      match Prim2SF x with
      | S754_zero _ => Some 0%Z
      | S754_finite sign m e =>
          let a := match e with
                   | Z0 => Z.pos m
                   | Z.pos p => (Z.pos m * 2 ^ Z.pos p)%Z
                   | Z.neg p => (Z.pos m / 2 ^ Z.pos p)%Z
                   end in
          Some (if sign then (- a)%Z else a)
      | _ => None
      end
  | _ => None
  end.

(** A raw hourly table as the file has it, the county as a number and
    missing in the last row. *)
Definition raw_hourly : frame :=
  mkFrame 3
    [ ("COUNTY_FIPS"%string, [Int 1001; Int 18097; Num nan]);
      ("county_name"%string, [Text (U "Autauga"); Text (U "Marion"); Num nan]);
      ("hr"%string, [Num 7%float; Int 8; Int 8]);
      ("designated"%string, [Num 2.5%float; Num nan; Num 1%float]);
      ("undesignated"%string, [Text (U "n/a"); Num 1%float; Num 1%float]);
      ("stalls"%string, [Num 4%float; Num 4%float; Num 6%float]) ].

(** A runtime whose float formatter loses nothing: sign, integer mantissa
    and binary exponent, and the sign of a zero and of an infinity. *)
Definition exact_repr (x : float) : str :=
  match Prim2SF x with
  | S754_zero sign => (if sign then U "-" else U "+") ++ U "0"
  | S754_finite sign m e =>
      (if sign then U "-" else U "+")
      ++ int_repr (Z.pos m) ++ U "p" ++ int_repr e
  | S754_infinity sign => (if sign then U "-" else U "+") ++ U "inf"
  | S754_nan => U "nan"
  end.

Definition exact_runtime : Runtime := {|
  parse_number := parse_number (Runtime := Samples.simple_runtime);
  group_sum := fun xs => fold_left PrimFloat.add xs 0%float;
  series_sum := fun xs => fold_left PrimFloat.add xs 0%float;
  float_repr := exact_repr
|}.

(** The reader of [exact_repr]. *)
Definition read_exact (s : str) : option float :=
  match s with
  | c :: body =>
      if (c =? 0x2d) || (c =? 0x2b)
      then
        let sign := c =? 0x2d in
        match CsvReader.split_on 0x70 body with
        | [m; e] =>
            match CsvReader.read_int m, CsvReader.read_int e with
            | Some (Z.pos p), Some e => Some (SF2Prim (S754_finite sign p e))
            | _, _ => None
            end
        | [w] =>
            if str_eqb w (U "0") then Some (SF2Prim (S754_zero sign))
            else if str_eqb w (U "inf") then Some (SF2Prim (S754_infinity sign))
            else None
        | _ => None
        end
      else None
  | [] => None
  end.

(** A daily table of three rows: another county, the county of the
    hourly sample, and a row whose identifier is blank. *)
Definition daily_both : list daily_row :=
  [ mkDaily (Text (U "18001")) 7%float;
    mkDaily (Text (U "18097")) 5%float;
    mkDaily (Num nan) 9%float ].

(** Overlays with one row each. *)
Definition sample_roads : Overlays.overlay :=
  [ Some (Overlays.mkGeometry Overlays.LineString false 0%float 0%float) ].

Definition sample_spots : Overlays.overlay :=
  [ Some (Overlays.mkGeometry Overlays.Point false (-86.25)%float 39.5%float) ].

(** A county table whose second identifier is missing. *)
Definition counties_with_gap : frame :=
  mkFrame 2
    [ ("county_fips"%string, [Int 1001; Num nan]);
      ("county_name"%string, [Text (U "Autauga"); Text (U "Nowhere")]) ].

End MoreSamples.

(** * Verified properties *)

(** ** Sanitising a click payload *)

Section Sanitize.
Import PyStr Session.

Lemma re_sub_D_empty_filter (raw : str) :
  re_sub_D_empty raw = remove_non_digits raw.
Proof.
  unfold remove_non_digits.
  induction raw as [|c rest IH]; simpl; [reflexivity|].
  unfold re_D. destruct (re_d c); simpl; congruence.
Qed.

Lemma remove_non_digits_all_digits (raw : str) :
  all_digits (remove_non_digits raw).
Proof.
  unfold all_digits, remove_non_digits.
  apply List.Forall_forall. intros c Hc.
  apply List.filter_In in Hc. tauto.
Qed.

Lemma sign_not_digit (c : char) : is_sign c = true -> re_d c = false.
Proof.
  unfold is_sign. intros H.
  apply orb_prop in H as [H|H]; apply N.eqb_eq in H; subst c; reflexivity.
Qed.

Lemma zero_char_digit : re_d zero_char = true.
Proof. reflexivity. Qed.

(** Without a leading sign, [zfill] is plain left padding. *)
Lemma zfill_digits (width : nat) (s : str) :
  all_digits s -> zfill width s = left_pad_zeros width s.
Proof.
  intros Hs. unfold zfill, left_pad_zeros.
  destruct (width - length s)%nat as [|k] eqn:Hk; [reflexivity|].
  destruct s as [|c rest]; [now rewrite List.app_nil_r|].
  inversion Hs as [|? ? Hc _]; subst.
  destruct (is_sign c) eqn:Hsign; [|reflexivity].
  apply sign_not_digit in Hsign. congruence.
Qed.

Lemma sanitize_spec (raw : str) :
  sanitize raw = left_pad_zeros 5 (remove_non_digits raw).
Proof.
  unfold sanitize. rewrite re_sub_D_empty_filter.
  apply zfill_digits, remove_non_digits_all_digits.
Qed.

Lemma left_pad_zeros_length (width : nat) (s : str) :
  length (left_pad_zeros width s) = Nat.max width (length s).
Proof.
  unfold left_pad_zeros. rewrite List.length_app, List.repeat_length. lia.
Qed.

Lemma left_pad_zeros_digits (width : nat) (s : str) :
  all_digits s -> all_digits (left_pad_zeros width s).
Proof.
  intros Hs. unfold all_digits, left_pad_zeros.
  apply List.Forall_app. split; [|exact Hs].
  apply List.Forall_forall. intros c Hc.
  apply List.repeat_spec in Hc. subst c. exact zero_char_digit.
Qed.

Lemma left_pad_zeros_long (width : nat) (s : str) :
  (width <= length s)%nat -> left_pad_zeros width s = s.
Proof.
  intros H. unfold left_pad_zeros.
  replace (width - length s)%nat with 0%nat by lia. reflexivity.
Qed.

(** A truthy payload read while the flag is off becomes the selection. *)
Lemma process_click_selected (st : session) (raw : str) :
  raw <> [] -> ignore_next_click st = false ->
  process_cycle (Some (Some raw)) st = mkSession (Some (sanitize raw)) false.
Proof.
  intros Hraw Hflag. destruct raw as [|c rest]; [congruence|].
  unfold process_cycle, read_click, clear_guard. simpl.
  rewrite Hflag. reflexivity.
Qed.

End Sanitize.

(** ** The selection state machine *)

Section Selection.
Import PyStr Session.

(** C1: after the clear action (selection empty, flag set) the next
    click-processing cycle leaves the selection empty whatever payload is
    present, every cycle ends with the flag off whether or not a click
    occurred, and the cycle after the ignored one handles its payload as
    usual: a non-empty payload becomes the selection, no payload leaves
    the selection empty.  The run in which the button is pressed ends
    cleared whatever it read before. *)
Theorem clear_suppresses_exactly_next_cycle
    (st : session) (stale next : map_state) (c : char) (rest : str) :
  let cleared := clear_selection st in
  let ignored := process_cycle stale cleared in
  cleared = mkSession None true
  /\ script_run stale true st = cleared
  /\ ignored = mkSession None false
  /\ (forall (st' : session) (ms : map_state),
        ignore_next_click (process_cycle ms st') = false)
  /\ process_cycle (Some (Some (c :: rest))) ignored
     = mkSession (Some (sanitize (c :: rest))) false
  /\ process_cycle next ignored
     = match clicked_popup next with
       | Some raw => mkSession (Some (sanitize raw)) false
       | None => mkSession None false
       end.
Proof.
  cbv zeta. repeat split.
  - unfold process_cycle, read_click, clear_guard, clear_selection.
    destruct (clicked_popup stale); reflexivity.
  - intros st' ms. unfold process_cycle, read_click, clear_guard.
    destruct (clicked_popup ms), st' as [sel [|]]; reflexivity.
  - unfold process_cycle, read_click, clear_guard, clear_selection.
    destruct (clicked_popup stale); reflexivity.
  - unfold process_cycle, read_click, clear_guard, clear_selection.
    destruct (clicked_popup stale), (clicked_popup next); reflexivity.
Qed.

(** C2: a click with a non-empty payload, read while the flag is off, sets
    the selection to the payload with its non-digit characters removed,
    left-padded with zeros to five characters. *)
Theorem click_sets_normalized_selection (st : session) (raw : str) :
  raw <> [] -> ignore_next_click st = false ->
  selected_fips (process_cycle (Some (Some raw)) st)
  = Some (left_pad_zeros 5 (remove_non_digits raw)).
Proof.
  intros Hraw Hflag. rewrite (process_click_selected st raw Hraw Hflag).
  simpl. now rewrite sanitize_spec.
Qed.

(** The example of C2: raw "IN-18097" becomes "18097". *)
Lemma click_sets_normalized_selection_witness :
  selected_fips (process_cycle (Some (Some (U "IN-18097"))) init_session)
  = Some (U "18097").
Proof.
  exact (click_sets_normalized_selection init_session (U "IN-18097")
           ltac:(discriminate) eq_refl).
Defined.

(** C9: the selection stored for a non-empty payload read while the flag
    is off has at least five characters, all of them digits; with no digit
    in the payload it is "00000", and with more than five digits it is all
    the digits of the payload. *)
Theorem click_selection_shape (st : session) (raw : str) :
  raw <> [] -> ignore_next_click st = false ->
  exists s : str,
    selected_fips (process_cycle (Some (Some raw)) st) = Some s
    /\ (5 <= length s)%nat
    /\ all_digits s
    /\ (remove_non_digits raw = [] -> s = U "00000")
    /\ ((5 < length (remove_non_digits raw))%nat -> s = remove_non_digits raw).
Proof.
  intros Hraw Hflag. exists (left_pad_zeros 5 (remove_non_digits raw)).
  rewrite (process_click_selected st raw Hraw Hflag). simpl.
  rewrite sanitize_spec. repeat split.
  - rewrite left_pad_zeros_length. lia.
  - apply left_pad_zeros_digits, remove_non_digits_all_digits.
  - intros Hnone. rewrite Hnone. reflexivity.
  - intros Hlong. apply left_pad_zeros_long. lia.
Qed.

Lemma click_selection_shape_witness :
  exists s : str,
    selected_fips (process_cycle (Some (Some (U "FIPS 1234567"))) init_session)
      = Some s
    /\ (5 <= length s)%nat
    /\ all_digits s
    /\ (remove_non_digits (U "FIPS 1234567") = [] -> s = U "00000")
    /\ ((5 < length (remove_non_digits (U "FIPS 1234567")))%nat
        -> s = remove_non_digits (U "FIPS 1234567")).
Proof.
  exact (click_selection_shape init_session (U "FIPS 1234567")
           ltac:(discriminate) eq_refl).
Defined.

(** Three executions with the same payload still reported by the map: the
    one in which the button is pressed, the one it starts, and the next.
    The second ignores the payload, the third reads it again. *)
Example clear_then_stale_payload (st : session) :
  let stale := Some (Some (U "county_fips 18097")) in
  run_all [(stale, true)] st = mkSession None true
  /\ run_all [(stale, true); (stale, false)] st = mkSession None false
  /\ run_all [(stale, true); (stale, false); (stale, false)] st
     = mkSession (Some (U "18097")) false.
Proof.
  cbv zeta. repeat split.
  all: destruct st as [sel [|]]; reflexivity.
Qed.

(** Digits outside ASCII are decimal digits for [\d] as well, and stay. *)
Example sanitize_arabic_indic :
  sanitize [0x663; 0x2d; 0x37] = [0x30; 0x30; 0x30; 0x663; 0x37].
Proof. reflexivity. Qed.

Example sanitize_no_digit : sanitize (U "Marion") = U "00000".
Proof. reflexivity. Qed.

Example sanitize_long : sanitize (U "18-097-001") = U "18097001".
Proof. reflexivity. Qed.

End Selection.

(** ** Columns of a frame *)

Section Columns.
Import PyStr Frames.

Lemma name_in_In (c : string) (names : list string) :
  name_in c names = true <-> In c names.
Proof.
  unfold name_in. rewrite List.existsb_exists. split.
  - intros [n [Hn Heq]]. apply String.eqb_eq in Heq. now subst.
  - intros Hin. exists c. split; [exact Hin|apply String.eqb_refl].
Qed.

Lemma lookup_col_None (c : string) (l : list (string * series)) :
  lookup_col c l = None <-> name_in c (List.map fst l) = false.
Proof.
  induction l as [|[n s] rest IH]; simpl; [tauto|].
  rewrite (String.eqb_sym c n).
  destruct (String.eqb n c); simpl; [split; discriminate|exact IH].
Qed.

Lemma has_column_lookup (c : string) (g : frame) :
  has_column c g = true <-> exists s, lookup_col c (cols g) = Some s.
Proof.
  unfold has_column, column_names.
  destruct (lookup_col c (cols g)) as [s|] eqn:Hl.
  - split; [eauto|intros _].
    destruct (name_in c (List.map fst (cols g))) eqn:Hn; [reflexivity|].
    apply lookup_col_None in Hn. congruence.
  - apply lookup_col_None in Hl. rewrite Hl.
    split; [discriminate|intros [s Hs]; discriminate].
Qed.

Lemma lookup_replace_same (c : string) (s : series) (l : list (string * series)) :
  name_in c (List.map fst l) = true -> lookup_col c (replace_col c s l) = Some s.
Proof.
  induction l as [|[n old] rest IH]; simpl; [discriminate|].
  rewrite (String.eqb_sym c n).
  destruct (String.eqb n c) eqn:Hn; simpl; rewrite Hn; auto.
Qed.

Lemma lookup_replace_other (c c' : string) (s : series)
    (l : list (string * series)) :
  c <> c' -> lookup_col c' (replace_col c s l) = lookup_col c' l.
Proof.
  intros Hne. induction l as [|[n old] rest IH]; simpl; [reflexivity|].
  destruct (String.eqb n c) eqn:Hn; simpl.
  - apply String.eqb_eq in Hn. subst n.
    apply String.eqb_neq in Hne. now rewrite Hne.
  - destruct (String.eqb n c'); [reflexivity|exact IH].
Qed.

Lemma lookup_col_app (c : string) (l1 l2 : list (string * series)) :
  lookup_col c (l1 ++ l2)
  = match lookup_col c l1 with
    | Some s => Some s
    | None => lookup_col c l2
    end.
Proof.
  induction l1 as [|[n s] rest IH]; simpl; [reflexivity|].
  destruct (String.eqb n c); [reflexivity|exact IH].
Qed.

Lemma lookup_set_same (g : frame) (c : string) (s : series) :
  lookup_col c (cols (set_col g c s)) = Some s.
Proof.
  unfold set_col. destruct (has_column c g) eqn:Hc; simpl.
  - now apply lookup_replace_same.
  - rewrite lookup_col_app.
    replace (lookup_col c (cols g)) with (@None series).
    + simpl. now rewrite String.eqb_refl.
    + symmetry. now apply lookup_col_None.
Qed.

Lemma lookup_set_other (g : frame) (c c' : string) (s : series) :
  c <> c' -> lookup_col c' (cols (set_col g c s)) = lookup_col c' (cols g).
Proof.
  intros Hne. unfold set_col. destruct (has_column c g); simpl.
  - now apply lookup_replace_other.
  - rewrite lookup_col_app. destruct (lookup_col c' (cols g)); [reflexivity|].
    simpl. apply String.eqb_neq in Hne. now rewrite Hne.
Qed.

Lemma nrows_set_col (g : frame) (c : string) (s : series) :
  nrows (set_col g c s) = nrows g.
Proof. unfold set_col. now destruct (has_column c g). Qed.

End Columns.

(** ** The numeric fill *)

Section Fill.
Import PyStr Frames.
Context `{RT : Runtime}.

Lemma is_nan_zero : PrimFloat.is_nan 0%float = false.
Proof. reflexivity. Qed.

Lemma coerce_fill_spec (v : cell) :
  fillna0 (to_numeric_coerce v) = zero_if_missing_or_unparsed v.
Proof.
  destruct v as [x|z|s|g]; simpl; try reflexivity.
  destruct (parse_number s); reflexivity.
Qed.

Lemma zero_if_filled (v : cell) :
  filled_number (zero_if_missing_or_unparsed v).
Proof.
  destruct v as [x|z|s|g]; simpl; try exact I; try exact is_nan_zero.
  - destruct (PrimFloat.is_nan x) eqn:Hx; simpl; [exact is_nan_zero|exact Hx].
  - destruct (parse_number s) as [x|]; [|exact is_nan_zero].
    destruct (PrimFloat.is_nan x) eqn:Hx; simpl; [exact is_nan_zero|exact Hx].
Qed.

Lemma zero_if_idempotent (v : cell) :
  zero_if_missing_or_unparsed (zero_if_missing_or_unparsed v)
  = zero_if_missing_or_unparsed v.
Proof.
  pose proof (zero_if_filled v) as Hf.
  destruct (zero_if_missing_or_unparsed v) as [x|z|s|g]; simpl in *;
    try reflexivity; try contradiction.
  now rewrite Hf.
Qed.

Lemma coerce_column_eq (g : frame) (c : string) :
  coerce_column g c
  = match lookup_col c (cols g) with
    | Some s => set_col g c (List.map zero_if_missing_or_unparsed s)
    | None => g
    end.
Proof.
  unfold coerce_column.
  destruct (lookup_col c (cols g)) as [s|] eqn:Hl.
  - replace (has_column c g) with true
      by (symmetry; apply has_column_lookup; eauto).
    f_equal. apply List.map_ext. intros v. apply coerce_fill_spec.
  - now destruct (has_column c g).
Qed.

Lemma lookup_coerce_column (g : frame) (c c' : string) :
  lookup_col c' (cols (coerce_column g c))
  = if String.eqb c c'
    then option_map (List.map zero_if_missing_or_unparsed) (lookup_col c' (cols g))
    else lookup_col c' (cols g).
Proof.
  rewrite coerce_column_eq.
  destruct (String.eqb c c') eqn:Hc.
  - apply String.eqb_eq in Hc. subst c'.
    destruct (lookup_col c (cols g)) as [s|] eqn:Hl; simpl.
    + apply lookup_set_same.
    + exact Hl.
  - apply String.eqb_neq in Hc.
    destruct (lookup_col c (cols g)); [now apply lookup_set_other|reflexivity].
Qed.

Lemma nrows_coerce_column (g : frame) (c : string) :
  nrows (coerce_column g c) = nrows g.
Proof.
  rewrite coerce_column_eq.
  destruct (lookup_col c (cols g)); [apply nrows_set_col|reflexivity].
Qed.

Lemma lookup_fill_numeric (cs : list string) (g : frame) (c : string) :
  lookup_col c (cols (fill_numeric cs g))
  = if name_in c cs
    then option_map (List.map zero_if_missing_or_unparsed) (lookup_col c (cols g))
    else lookup_col c (cols g).
Proof.
  unfold fill_numeric. revert g.
  induction cs as [|c0 cs IH]; intros g; simpl; [reflexivity|].
  rewrite IH, lookup_coerce_column, (String.eqb_sym c c0).
  destruct (String.eqb c0 c), (name_in c cs); simpl; try reflexivity.
  destruct (lookup_col c (cols g)) as [s|]; simpl; [|reflexivity].
  f_equal. rewrite List.map_map. apply List.map_ext, zero_if_idempotent.
Qed.

Lemma nrows_fill_numeric (cs : list string) (g : frame) :
  nrows (fill_numeric cs g) = nrows g.
Proof.
  unfold fill_numeric. revert g.
  induction cs as [|c0 cs IH]; intros g; simpl; [reflexivity|].
  now rewrite IH, nrows_coerce_column.
Qed.

End Fill.

(** ** The left merge *)

Section Merge.
Import PyStr Frames.

Lemma last_ascii_append (n : string) (a : ascii) (rest : string) :
  last_ascii (n ++ String a rest) = last_ascii (String a rest).
Proof.
  induction n as [|b n IH]; [reflexivity|].
  change (String b n ++ String a rest)%string
    with (String b (n ++ String a rest)%string).
  cbn [last_ascii]. rewrite IH.
  destruct n; reflexivity.
Qed.

Lemma suffix_x_not_key (n : string) : (n ++ "_x")%string <> key.
Proof.
  intros H. apply (f_equal last_ascii) in H.
  rewrite last_ascii_append in H. discriminate H.
Qed.

Lemma map_const_repeat {A B : Type} (b : B) (l : list A) :
  List.map (fun _ => b) l = repeat b (length l).
Proof. induction l; simpl; congruence. Qed.

Lemma take_left_app (ix1 ix2 : list (nat * option nat)) (s : series) :
  take_left (ix1 ++ ix2) s = take_left ix1 s ++ take_left ix2 s.
Proof. unfold take_left. apply List.map_app. Qed.

(** The left keys, gathered by the row pairs of the join. *)
Lemma take_left_indexer (rkeys pre lkeys : series) :
  take_left (left_indexer (length pre) lkeys rkeys) (pre ++ lkeys)
  = left_join_keys lkeys rkeys.
Proof.
  revert pre. induction lkeys as [|k rest IH]; intros pre; [reflexivity|].
  cbn [left_indexer]. rewrite take_left_app.
  unfold left_join_keys. cbn [flat_map]. f_equal.
  - destruct (matching_rows k 0 rkeys) as [|j js]; unfold take_left.
    + cbn [List.map fst length Nat.max repeat]. now rewrite List.nth_middle.
    + rewrite List.map_map. cbn [fst].
      rewrite (List.map_ext _ (fun _ => k)).
      * rewrite map_const_repeat. reflexivity.
      * intros j0. now rewrite List.nth_middle.
  - specialize (IH (pre ++ [k])).
    rewrite List.length_app, <- List.app_assoc in IH. simpl in IH.
    replace (length pre + 1)%nat with (S (length pre)) in IH by lia.
    exact IH.
Qed.

Lemma lookup_key_left_columns (left right : frame)
    (ix : list (nat * option nat)) (rest : list (string * series)) :
  lookup_col key
    (List.map (fun c =>
         (if negb (String.eqb (fst c) key) && name_in (fst c) (column_names right)
          then (fst c ++ "_x")%string else fst c,
          take_left ix (snd c)))
      (cols left) ++ rest)
  = match lookup_col key (cols left) with
    | Some s => Some (take_left ix s)
    | None => lookup_col key rest
    end.
Proof.
  induction (cols left) as [|[n s] l IH]; [reflexivity|].
  cbn [List.map app lookup_col fst snd].
  destruct (String.eqb n key) eqn:Hn.
  - cbn [negb andb]. now rewrite Hn.
  - cbn [negb andb].
    destruct (name_in n (column_names right)).
    + pose proof (suffix_x_not_key n) as Hx.
      apply String.eqb_neq in Hx. now rewrite Hx.
    + now rewrite Hn.
Qed.

(** What a successful merge is made of. *)
Lemma merge_left_Ok (left right merged : frame) :
  merge_left left right key = Ok merged ->
  exists lkeys rkeys,
    lookup_col key (cols left) = Some lkeys
    /\ lookup_col key (cols right) = Some rkeys
    /\ merged = mkFrame (length (left_indexer 0 lkeys rkeys))
                  (merged_columns left right key (left_indexer 0 lkeys rkeys)).
Proof.
  unfold merge_left. intros H.
  destruct (lookup_col key (cols left)) as [lk|]; [|discriminate].
  destruct (lookup_col key (cols right)) as [rk|]; [|discriminate].
  destruct (unique_names _); [|discriminate].
  exists lk, rk. repeat split. congruence.
Qed.

(** The merge succeeds exactly when both frames have the key column and
    the suffixes leave every column name unique. *)
Lemma merge_left_succeeds (left right : frame) (lkeys rkeys : series) :
  lookup_col key (cols left) = Some lkeys ->
  lookup_col key (cols right) = Some rkeys ->
  unique_names
    (List.map fst (merged_columns left right key (left_indexer 0 lkeys rkeys)))
  = true ->
  merge_left left right key
  = Ok (mkFrame (length (left_indexer 0 lkeys rkeys))
          (merged_columns left right key (left_indexer 0 lkeys rkeys))).
Proof. unfold merge_left. now intros -> -> ->. Qed.

Lemma merged_key_column (left right : frame) (lkeys rkeys : series) :
  lookup_col key (cols left) = Some lkeys ->
  lookup_col key
    (merged_columns left right key (left_indexer 0 lkeys rkeys))
  = Some (left_join_keys lkeys rkeys).
Proof.
  intros Hl. unfold merged_columns.
  rewrite lookup_key_left_columns, Hl.
  f_equal. apply (take_left_indexer rkeys [] lkeys).
Qed.


Lemma left_join_keys_unmatched (lkeys rkeys : series) :
  Forall (fun k => matching_rows k 0 rkeys = []) lkeys ->
  left_join_keys lkeys rkeys = lkeys.
Proof.
  unfold left_join_keys.
  induction 1 as [|k rest Hk _ IH]; [reflexivity|].
  cbn [flat_map]. rewrite Hk, IH. reflexivity.
Qed.

Lemma lookup_col_unique (l : list (string * series)) (c : string) (s : series) :
  unique_names (List.map fst l) = true -> In (c, s) l -> lookup_col c l = Some s.
Proof.
  induction l as [|[n s0] rest IH]; simpl; [tauto|].
  intros Hu [Heq|Hin].
  - injection Heq as -> ->. now rewrite String.eqb_refl.
  - apply andb_prop in Hu as [Hn Hu].
    destruct (String.eqb n c) eqn:Hnc; [|now apply IH].
    apply String.eqb_eq in Hnc. subst n.
    apply negb_true_iff in Hn.
    assert (Hc : name_in c (List.map fst rest) = true).
    { apply name_in_In. apply List.in_map_iff. now exists (c, s). }
    congruence.
Qed.

(** A right column whose name the left frame does not have keeps its
    name, and holds the right entries gathered by the row pairs. *)
Lemma merged_right_column (left right merged : frame) (c : string) (s : series) :
  merge_left left right key = Ok merged ->
  In (c, s) (cols right) ->
  c <> key ->
  name_in c (column_names left) = false ->
  exists lkeys rkeys,
    lookup_col key (cols left) = Some lkeys
    /\ lookup_col key (cols right) = Some rkeys
    /\ lookup_col c (cols merged)
       = Some (take_right (left_indexer 0 lkeys rkeys) s).
Proof.
  unfold merge_left. intros H Hin Hkey Hleft.
  destruct (lookup_col key (cols left)) as [lk|]; [|discriminate].
  destruct (lookup_col key (cols right)) as [rk|]; [|discriminate].
  destruct (unique_names _) eqn:Hu; [|discriminate].
  injection H as <-. exists lk, rk. split; [reflexivity|]. split; [reflexivity|].
  cbn [cols]. apply lookup_col_unique; [exact Hu|].
  unfold merged_columns. apply List.in_or_app. right.
  apply List.in_map_iff. exists (c, s). cbn [fst snd]. rewrite Hleft.
  split; [reflexivity|].
  apply List.filter_In. split; [exact Hin|].
  cbn [fst]. apply negb_true_iff. now apply String.eqb_neq.
Qed.

Lemma matching_rows_ge (k : cell) (rkeys : series) (i j : nat) :
  In j (matching_rows k i rkeys) -> (i <= j)%nat.
Proof.
  revert i. induction rkeys as [|r rest IH]; intros i; simpl; [tauto|].
  intros H. apply List.in_app_or in H as [H|H].
  - destruct (key_eqb k r); [|destruct H]. destruct H as [<-|[]]. lia.
  - apply IH in H. lia.
Qed.




End Merge.

(** ** The join stage *)

Section Join.
Import PyStr Frames Samples.

Lemma nonneg_of_not_negative (x : float) :
  PrimFloat.is_nan x = false ->
  PrimFloat.ltb x 0%float = false ->
  PrimFloat.leb 0%float x = true.
Proof.
  unfold PrimFloat.is_nan.
  rewrite FloatAxioms.eqb_spec, FloatAxioms.ltb_spec, FloatAxioms.leb_spec.
  change (Prim2SF 0%float) with (S754_zero false).
  destruct (Prim2SF x) as [s|s| |s m e]; try destruct s; cbn;
    try reflexivity; try discriminate.
  all: unfold SFeqb, SFltb, SFleb; cbn;
    try rewrite Pos.compare_refl; try rewrite Z.compare_refl; cbn;
    try discriminate; try reflexivity.
Qed.

Lemma not_true_false (b : bool) : b <> true -> b = false.
Proof. now destruct b. Qed.

Lemma fillna_nonneg (x : float) :
  PrimFloat.ltb x 0%float <> true ->
  nonneg_number (if PrimFloat.is_nan x then Num 0%float else Num x).
Proof.
  intros Hneg. destruct (PrimFloat.is_nan x) eqn:Hx; simpl; [reflexivity|].
  apply nonneg_of_not_negative; [exact Hx|now apply not_true_false].
Qed.

Lemma zero_if_nonneg `{RT : Runtime} (v : cell) :
  ~ negative_number (to_numeric_coerce v) ->
  nonneg_number (zero_if_missing_or_unparsed v).
Proof.
  destruct v as [x|z|t|g]; simpl.
  - apply fillna_nonneg.
  - lia.
  - destruct (parse_number t) as [x|]; simpl.
    + apply fillna_nonneg.
    + reflexivity.
  - reflexivity.
Qed.

Lemma join_and_fill_Ok `{RT : Runtime} (counties daily g : frame) :
  join_and_fill counties daily = Ok g ->
  exists merged,
    merge_left counties daily key = Ok merged
    /\ g = fill_numeric (num_cols daily) merged.
Proof.
  unfold join_and_fill, mbind, result_bind, mret, result_ret.
  destruct (merge_left counties daily key) as [merged|e]; [|discriminate].
  intros H. exists merged. split; congruence.
Qed.

(** C5, as the code has it: after the join every numeric metric column
    holds numbers only, none of them missing; each entry is the source
    number, or zero where the source entry was missing or did not parse;
    and the column is non-negative when no source number is negative. *)
Theorem numeric_columns_filled `{RT : Runtime}
    (counties daily g : frame) (c : string) (s : series) :
  join_and_fill counties daily = Ok g ->
  In c (num_cols daily) ->
  lookup_col c (cols g) = Some s ->
  Forall filled_number s
  /\ exists merged s0,
       merge_left counties daily key = Ok merged
       /\ lookup_col c (cols merged) = Some s0
       /\ s = List.map zero_if_missing_or_unparsed s0
       /\ (Forall (fun v => ~ negative_number (to_numeric_coerce v)) s0 ->
           Forall nonneg_number s).
Proof.
  intros Hjoin Hc Hs.
  destruct (join_and_fill_Ok _ _ _ Hjoin) as [merged [Hm ->]].
  rewrite lookup_fill_numeric in Hs.
  apply name_in_In in Hc. rewrite Hc in Hs.
  destruct (lookup_col c (cols merged)) as [s0|] eqn:Hs0; [|discriminate].
  simpl in Hs. injection Hs as <-.
  split.
  - apply List.Forall_forall. intros v Hv.
    apply List.in_map_iff in Hv as [v0 [<- _]]. apply zero_if_filled.
  - exists merged, s0. repeat split; try assumption.
    intros Hsrc. apply List.Forall_forall. intros v Hv.
    apply List.in_map_iff in Hv as [v0 [<- Hv0]].
    apply zero_if_nonneg.
    rewrite List.Forall_forall in Hsrc. now apply Hsrc.
Qed.

Lemma numeric_columns_filled_witness :
  Forall filled_number [Num 12%float; Num 0%float]
  /\ exists merged s0,
       merge_left two_counties daily_plain key = Ok merged
       /\ lookup_col "supply" (cols merged) = Some s0
       /\ [Num 12%float; Num 0%float]
          = List.map (zero_if_missing_or_unparsed (RT := simple_runtime)) s0
       /\ (Forall (fun v => ~ negative_number
                                (to_numeric_coerce (RT := simple_runtime) v)) s0 ->
           Forall nonneg_number [Num 12%float; Num 0%float]).
Proof.
  apply (numeric_columns_filled (RT := simple_runtime)
           two_counties daily_plain
           (filled_of (Num 12%float) (Num 0%float)) "supply").
  - vm_compute. reflexivity.
  - vm_compute. tauto.
  - vm_compute. reflexivity.
Defined.

(** C5 as stated fails: a negative source number is numeric and present,
    so the fill leaves it as it is. *)
Lemma negative_metric_survives_fill :
  join_and_fill (RT := simple_runtime) two_counties daily_negative
    = Ok (filled_of (Num (-1)%float) (Num 3%float))
  /\ In "supply"%string (num_cols daily_negative)
  /\ lookup_col "supply" (cols (filled_of (Num (-1)%float) (Num 3%float)))
     = Some [Num (-1)%float; Num 0%float]
  /\ ~ Forall nonneg_number [Num (-1)%float; Num 0%float]
  /\ ~ metrics_nonneg_after_join (RT := simple_runtime).
Proof.
  assert (Hrun : join_and_fill (RT := simple_runtime) two_counties daily_negative
                 = Ok (filled_of (Num (-1)%float) (Num 3%float)))
    by (vm_compute; reflexivity).
  assert (Hin : In "supply"%string (num_cols daily_negative))
    by (vm_compute; tauto).
  assert (Hneg : ~ Forall nonneg_number [Num (-1)%float; Num 0%float]).
  { intros H. inversion H as [|? ? H1 _]; subst. simpl in H1. discriminate H1. }
  repeat split; try assumption.
  intros Hall. apply Hneg.
  exact (Hall _ _ _ _ _ Hrun Hin eq_refl).
Qed.

End Join.

(** ** The display columns *)

Section Display.
Import PyStr Frames Samples.











Lemma key_not_numeric (daily : frame) : name_in key (num_cols daily) = false.
Proof.
  destruct (name_in key (num_cols daily)) eqn:H; [|reflexivity].
  apply name_in_In in H. unfold num_cols in H.
  apply List.filter_In in H as [_ H]. discriminate H.
Qed.

End Display.

Section JoinStage.
Import PyStr Frames Samples.

Lemma take_left_length (ix : list (nat * option nat)) (s : series) :
  length (take_left ix s) = length ix.
Proof. unfold take_left. apply List.length_map. Qed.




(** The same tables with a finite supply: the display columns. *)
Example join_stage_plain_display :
  exists g,
    join_stage (RT := simple_runtime) two_counties daily_plain = Ok g
    /\ lookup_col "supply_fmt" (cols g) = Some [Int 12; Int 0]
    /\ lookup_col "acc_des_demand_fmt" (cols g) = Some [Int 0; Int 0]
    /\ lookup_col "acc_total_deficit_fmt" (cols g) = Some [Int 0; Int 0]
    /\ lookup_col "county_fips" (cols g)
       = Some [Text (U "18097"); Text (U "18001")].
Proof. eexists. split; [vm_compute; reflexivity|]. repeat split. Qed.

End JoinStage.

(** ** The hourly aggregation *)

Section Aggregation.
Import PyStr Frames Hourly Samples.

Lemma insert_hour_In (h x : Z) (hs : list Z) :
  In x (insert_hour h hs) <-> x = h \/ In x hs.
Proof.
  induction hs as [|y rest IH]; simpl; [intuition congruence|].
  destruct (Z.ltb_spec h y); [simpl; intuition congruence|].
  destruct (Z.eqb_spec h y); simpl; [subst; intuition congruence|].
  rewrite IH. intuition congruence.
Qed.

Lemma insert_hour_sorted (h : Z) (hs : list Z) :
  StronglySorted Z.lt hs -> StronglySorted Z.lt (insert_hour h hs).
Proof.
  induction 1 as [|y rest Hrest IH Hy]; simpl.
  - repeat constructor.
  - destruct (Z.ltb_spec h y) as [Hlt|Hge].
    + constructor; [now constructor|].
      constructor; [exact Hlt|].
      apply List.Forall_forall. intros x Hx.
      rewrite List.Forall_forall in Hy. specialize (Hy x Hx). lia.
    + destruct (Z.eqb_spec h y) as [Heq|Hne]; [now constructor|].
      constructor; [exact IH|].
      apply List.Forall_forall. intros x Hx.
      apply insert_hour_In in Hx as [->|Hx]; [lia|].
      rewrite List.Forall_forall in Hy. now apply Hy.
Qed.

Lemma group_hours_sorted (sub : list hourly_row) :
  StronglySorted Z.lt (group_hours sub).
Proof.
  unfold group_hours. induction sub as [|r rest IH]; simpl.
  - constructor.
  - now apply insert_hour_sorted.
Qed.

Lemma sorted_NoDup (hs : list Z) : StronglySorted Z.lt hs -> List.NoDup hs.
Proof.
  induction 1 as [|y rest Hrest IH Hy]; constructor; [|exact IH].
  intros Hin. rewrite List.Forall_forall in Hy. specialize (Hy y Hin). lia.
Qed.

Lemma group_hours_In (sub : list hourly_row) (h : Z) :
  In h (group_hours sub) <-> exists r, In r sub /\ h_hour r = h.
Proof.
  unfold group_hours. induction sub as [|r rest IH]; simpl.
  - split; [tauto|intros [r [[] _]]].
  - rewrite insert_hour_In, IH. split.
    + intros [->|[r' [Hr' Hh]]]; [exists r; auto|exists r'; auto].
    + intros [r' [[<-|Hr'] Hh]]; [left; now symmetry|right; eauto].
Qed.

Lemma aggregate_hours {RT : Runtime} (sub : list hourly_row) (supply : float) :
  List.map t_hour (aggregate sub supply) = group_hours sub.
Proof.
  unfold aggregate. rewrite List.map_map. simpl. apply List.map_id.
Qed.

Lemma aggregate_row {RT : Runtime} (sub : list hourly_row) (supply : float)
    (row : table_row) :
  In row (aggregate sub supply) ->
  row = mkRow (t_hour row)
          (group_sum (List.map h_des_demand (rows_of_hour (t_hour row) sub)))
          (group_sum (List.map h_undes_demand (rows_of_hour (t_hour row) sub)))
          supply.
Proof.
  unfold aggregate. intros H.
  apply List.in_map_iff in H as [h [<- _]]. reflexivity.
Qed.

Lemma filter_filter {A : Type} (p q : A -> bool) (l : list A) :
  List.filter q (List.filter p l) = List.filter (fun a => p a && q a) l.
Proof.
  induction l as [|a l IH]; simpl; [reflexivity|].
  destruct (p a); simpl; [destruct (q a)|]; simpl; congruence.
Qed.

Lemma str_eqb_eq (a b : str) : str_eqb a b = true <-> a = b.
Proof. unfold str_eqb. apply bool_decide_eq_true. Qed.

Lemma fillna0_float_not_nan (x : float) :
  PrimFloat.is_nan (fillna0_float x) = false.
Proof.
  unfold fillna0_float.
  destruct (PrimFloat.is_nan x) eqn:Hx; [reflexivity|exact Hx].
Qed.

Lemma series_max_single (x : float) :
  PrimFloat.is_nan x = false -> series_max [x] = x.
Proof. intros Hx. unfold series_max. simpl. now rewrite Hx. Qed.

End Aggregation.

Section HourlyTable.
Import PyStr Frames Hourly Samples.
Context {RT : Runtime}.

Lemma snd_hourly_long (daily : list daily_row) (names : gmap str str)
    (hourly : list hourly_row) (fips : option str) :
  snd (hourly_long daily names hourly fips)
  = aggregate (sub_frame hourly fips) (supply_const daily fips).
Proof. reflexivity. Qed.

Lemma fold_max_In (l : list float) (x : float) :
  In (fold_left float_max l x) (x :: l).
Proof.
  revert x. induction l as [|y l IH]; intros x; [now left|].
  cbn [fold_left]. specialize (IH (float_max x y)).
  destruct IH as [Heq|Hin]; [|right; now right].
  rewrite <- Heq. unfold float_max.
  destruct (PrimFloat.ltb x y); [right; now left|now left].
Qed.

Lemma filter_all {A : Type} (p : A -> bool) (l : list A) :
  (forall a, In a l -> p a = true) -> List.filter p l = l.
Proof.
  induction l as [|a l IH]; intros H; [reflexivity|]. cbn [List.filter].
  rewrite (H a (or_introl eq_refl)). f_equal. apply IH.
  intros b Hb. apply H. now right.
Qed.

Lemma cell_is_Text (fips : str) (v : cell) :
  cell_is fips v = true <-> v = Text fips.
Proof.
  destruct v as [x|z|t|g]; cbn [cell_is]; try (split; discriminate).
  rewrite str_eqb_eq. split; [now intros ->|now intros [= ->]].
Qed.

(** The supply constant of a selected county, read on the rows of the
    daily table: NaN when none is the county's, and otherwise the supply
    of one of the county's rows, a blank read as zero. *)
Lemma supply_const_selected (daily : list daily_row) (fips : str) :
  fips <> [] ->
  (supply_const daily (Some fips) = nan
   /\ forall r, In r daily -> d_county_fips r <> Text fips)
  \/ (exists r, In r daily /\ d_county_fips r = Text fips
                /\ supply_const daily (Some fips) = fillna0_float (d_supply r)).
Proof.
  intros Hfips. unfold supply_const.
  destruct fips as [|c rest]; [congruence|]. cbn [truthy].
  unfold county_supplies.
  destruct (List.filter (fun r => cell_is (c :: rest) (d_county_fips r)) daily)
    as [|y ys] eqn:Hys.
  - left. split; [reflexivity|]. intros r Hin Hkey.
    assert (Hr : In r (List.filter
                         (fun r => cell_is (c :: rest) (d_county_fips r)) daily)).
    { apply List.filter_In. split; [exact Hin|now apply cell_is_Text]. }
    rewrite Hys in Hr. destruct Hr.
  - right.
    assert (Hall : forall x,
              In x (List.map fillna0_float (List.map d_supply (y :: ys))) ->
              negb (PrimFloat.is_nan x) = true).
    { intros x Hx. apply List.in_map_iff in Hx as [x0 [<- _]].
      now rewrite fillna0_float_not_nan. }
    unfold series_max. rewrite (filter_all _ _ Hall). cbn [List.map].
    pose proof (fold_max_In (List.map fillna0_float (List.map d_supply ys))
                  (fillna0_float (d_supply y))) as Hin.
    change (In (fold_left float_max
                  (List.map fillna0_float (List.map d_supply ys))
                  (fillna0_float (d_supply y)))
               (List.map fillna0_float (List.map d_supply (y :: ys)))) in Hin.
    apply List.in_map_iff in Hin as [x [Hr Hin]].
    apply List.in_map_iff in Hin as [r [<- Hin]].
    exists r. rewrite <- Hys in Hin. apply List.filter_In in Hin as [Hin Hkey].
    split; [exact Hin|]. split; [now apply cell_is_Text|].
    now rewrite Hr.
Qed.

(** C3: for a selected county the table has one row per hour, for exactly
    the hours of that county's rows in the hourly data; the two demands of
    a row are the sums over that county's rows of that hour; the supply is
    the same constant in every row; and when the daily table has a row
    for the county (its rows for the county all carrying one supply),
    that constant is the county's supply there (zero when that entry is
    blank). *)
Theorem county_aggregation (daily : list daily_row) (names : gmap str str)
    (hourly : list hourly_row) (fips : str) :
  fips <> [] ->
  let table := snd (hourly_long daily names hourly (Some fips)) in
  let county_rows_at := fun h : Z =>
    List.filter (fun r => str_eqb (h_county r) fips && (h_hour r =? h)%Z) hourly in
  List.NoDup (List.map t_hour table)
  /\ (forall h, In h (List.map t_hour table) <->
        exists r, In r hourly /\ h_county r = fips /\ h_hour r = h)
  /\ (forall row, In row table ->
        t_des_demand row
          = group_sum (List.map h_des_demand (county_rows_at (t_hour row)))
        /\ t_undes_demand row
          = group_sum (List.map h_undes_demand (county_rows_at (t_hour row)))
        /\ t_supply row = supply_const daily (Some fips))
  /\ (forall r, In r daily -> d_county_fips r = Text fips ->
        (forall r', In r' daily -> d_county_fips r' = Text fips ->
                    d_supply r' = d_supply r) ->
        supply_const daily (Some fips) = fillna0_float (d_supply r)
        /\ (PrimFloat.is_nan (d_supply r) = false ->
            forall row, In row table -> t_supply row = d_supply r)).
Proof.
  intros Hfips table county_rows_at.
  assert (Htable : table
            = aggregate (List.filter (fun r => str_eqb (h_county r) fips) hourly)
                (supply_const daily (Some fips))).
  { subst table. rewrite snd_hourly_long. unfold sub_frame.
    destruct fips as [|c rest]; [congruence|]. reflexivity. }
  assert (Hrows : forall row, In row table ->
            t_des_demand row
              = group_sum (List.map h_des_demand (county_rows_at (t_hour row)))
            /\ t_undes_demand row
              = group_sum (List.map h_undes_demand (county_rows_at (t_hour row)))
            /\ t_supply row = supply_const daily (Some fips)).
  { intros row Hrow. rewrite Htable in Hrow.
    apply aggregate_row in Hrow. unfold rows_of_hour in Hrow.
    rewrite filter_filter in Hrow. subst county_rows_at.
    rewrite Hrow. cbn. auto. }
  split; [|split; [|split]].
  - rewrite Htable, aggregate_hours.
    apply sorted_NoDup, group_hours_sorted.
  - intros h. rewrite Htable, aggregate_hours, group_hours_In.
    split.
    + intros [r [Hr Hh]]. apply List.filter_In in Hr as [Hr Hc].
      apply str_eqb_eq in Hc. eauto.
    + intros [r [Hr [Hc Hh]]]. exists r. split; [|exact Hh].
      apply List.filter_In. split; [exact Hr|now apply str_eqb_eq].
  - exact Hrows.
  - intros r Hin Hkey Hsame.
    assert (Hconst : supply_const daily (Some fips) = fillna0_float (d_supply r)).
    { destruct (supply_const_selected daily fips Hfips)
        as [[_ Hnone]|(r' & Hin' & Hkey' & Hc)].
      - destruct (Hnone r Hin Hkey).
      - now rewrite Hc, (Hsame r' Hin' Hkey'). }
    split; [exact Hconst|].
    intros Hnan row Hrow. destruct (Hrows row Hrow) as [_ [_ ->]].
    rewrite Hconst. unfold fillna0_float. now rewrite Hnan.
Qed.

(** C4: with no selection the table groups the whole hourly table by
    hour, the two demands of a row are the sums over all rows of that
    hour, and the supply of every row is the sum of the supply column of
    the daily table. *)
Theorem statewide_aggregation (daily : list daily_row) (names : gmap str str)
    (hourly : list hourly_row) :
  let table := snd (hourly_long daily names hourly None) in
  let rows_at := fun h : Z => List.filter (fun r => (h_hour r =? h)%Z) hourly in
  let total := series_sum (List.map fillna0_float (List.map d_supply daily)) in
  List.NoDup (List.map t_hour table)
  /\ (forall h, In h (List.map t_hour table) <->
        exists r, In r hourly /\ h_hour r = h)
  /\ (forall row, In row table ->
        t_des_demand row = group_sum (List.map h_des_demand (rows_at (t_hour row)))
        /\ t_undes_demand row
           = group_sum (List.map h_undes_demand (rows_at (t_hour row)))
        /\ t_supply row = total).
Proof.
  cbv zeta. rewrite snd_hourly_long.
  unfold sub_frame, supply_const. cbn [truthy].
  split; [|split].
  - rewrite aggregate_hours. apply sorted_NoDup, group_hours_sorted.
  - intros h. rewrite aggregate_hours. apply group_hours_In.
  - intros row Hrow. apply aggregate_row in Hrow.
    unfold rows_of_hour in Hrow. rewrite Hrow. cbn. auto.
Qed.

(** C10: when no row of the daily table belongs to the selected county,
    the supply constant is the maximum of an empty column, NaN and not
    zero; every row of the table carries it, and the export writes it as a
    missing value in every record. *)
Theorem unmatched_county_supply_nan (daily : list daily_row)
    (names : gmap str str) (hourly : list hourly_row) (fips : str) :
  fips <> [] ->
  county_supplies daily fips = [] ->
  let table := snd (hourly_long daily names hourly (Some fips)) in
  supply_const daily (Some fips) = series_max []
  /\ series_max [] = nan
  /\ PrimFloat.is_nan (supply_const daily (Some fips)) = true
  /\ supply_const daily (Some fips) <> 0%float
  /\ (forall row, In row table -> t_supply row = nan)
  /\ (forall fields,
        In fields (tl (download_csv daily names hourly (Some fips))) ->
        nth 3 fields (U "absent") = csv_float nan)
  /\ csv_float nan = [].
Proof.
  intros Hfips Hdaily table.
  assert (Hconst : supply_const daily (Some fips) = nan).
  { unfold supply_const. destruct fips as [|c rest]; [congruence|].
    cbn [truthy]. now rewrite Hdaily. }
  assert (Hrows : forall row, In row table -> t_supply row = nan).
  { intros row Hrow. subst table. rewrite snd_hourly_long in Hrow.
    apply aggregate_row in Hrow. rewrite Hrow. cbn. exact Hconst. }
  split; [now rewrite Hconst|]. split; [reflexivity|].
  split; [now rewrite Hconst|]. split; [rewrite Hconst; discriminate|].
  split; [exact Hrows|]. split; [|reflexivity].
  intros fields Hfields. unfold download_csv, to_csv in Hfields.
  cbn [tl] in Hfields. apply List.in_map_iff in Hfields as [row [<- Hrow]].
  rewrite <- (Hrows row Hrow). reflexivity.
Qed.

End HourlyTable.

Section HourlySamples.
Import PyStr Frames Hourly Samples MoreSamples.

Lemma county_aggregation_witness :
  let table :=
    snd (hourly_long (RT := simple_runtime) daily_both ∅ hourly_sample
           (Some (U "18097"))) in
  List.NoDup (List.map t_hour table)
  /\ supply_const (RT := simple_runtime) daily_both (Some (U "18097")) = 5%float
  /\ Forall (fun row => t_supply row = 5%float) table.
Proof.
  destruct (county_aggregation (RT := simple_runtime) daily_both ∅ hourly_sample
              (U "18097") ltac:(discriminate))
    as (Hhours & _ & _ & Hsupply).
  destruct (Hsupply (mkDaily (Text (U "18097")) 5%float)) as [Hconst Hrows].
  - cbn. tauto.
  - reflexivity.
  - intros r' Hin Hkey. cbn in Hin.
    destruct Hin as [<-|[<-|[<-|[]]]];
      [discriminate Hkey|reflexivity|discriminate Hkey].
  - split; [exact Hhours|]. split; [exact Hconst|].
    apply List.Forall_forall. exact (Hrows eq_refl).
Defined.

Lemma unmatched_county_supply_nan_witness :
  let table :=
    snd (hourly_long (RT := simple_runtime) daily_sample ∅ hourly_sample
           (Some (U "18001"))) in
  supply_const (RT := simple_runtime) daily_sample (Some (U "18001"))
    = series_max []
  /\ series_max [] = nan
  /\ PrimFloat.is_nan
       (supply_const (RT := simple_runtime) daily_sample (Some (U "18001")))
     = true
  /\ supply_const (RT := simple_runtime) daily_sample (Some (U "18001"))
     <> 0%float
  /\ (forall row, In row table -> t_supply row = nan)
  /\ (forall fields,
        In fields (tl (download_csv (RT := simple_runtime) daily_sample ∅
                         hourly_sample (Some (U "18001")))) ->
        nth 3 fields (U "absent") = csv_float (RT := simple_runtime) nan)
  /\ csv_float (RT := simple_runtime) nan = [].
Proof.
  exact (unmatched_county_supply_nan (RT := simple_runtime) daily_sample ∅
           hourly_sample (U "18001") ltac:(discriminate) eq_refl).
Defined.

Example daily_rows_plain :
  daily_rows daily_plain = Some [ mkDaily (Text (U "18097")) 12%float ].
Proof. reflexivity. Qed.

(** The selected county of the sample: hours 1 and 3, the two rows of
    hour 3 added up, supply 5 throughout. *)
Example hourly_table_selected :
  snd (hourly_long (RT := simple_runtime) daily_sample ∅ hourly_sample
         (Some (U "18097")))
  = [ mkRow 1 1%float 2.5%float 5%float; mkRow 3 11%float 22%float 5%float ].
Proof. vm_compute. reflexivity. Qed.

(** The county without a daily row: its one hourly row, supply NaN, and
    an empty supply field in the export. *)
Example hourly_table_unmatched :
  snd (hourly_long (RT := simple_runtime) daily_sample ∅ hourly_sample
         (Some (U "18001")))
  = [ mkRow 1 4%float 2%float nan ]
  /\ List.map (fun fields => nth 3 fields (U "absent"))
       (download_csv (RT := simple_runtime) daily_sample ∅ hourly_sample
          (Some (U "18001")))
     = [ U "supply"; [] ].
Proof. split; vm_compute; reflexivity. Qed.

(** Statewide: both counties together, supply the sum of the daily
    column; the export keeps the fraction of 2.5 (mantissa and exponent),
    where the display columns would round it to 2. *)
Example hourly_table_statewide :
  snd (hourly_long (RT := simple_runtime) daily_sample ∅ hourly_sample None)
  = [ mkRow 1 5%float 4.5%float 5%float; mkRow 3 11%float 22%float 5%float ]
  /\ nth 2 (nth 1 (download_csv (RT := simple_runtime) daily_sample ∅
                     hourly_sample (Some (U "18097"))) []) []
     = U "5629499534213120p-51"
  /\ rounded_int (Num 2.5%float) = Int 2.
Proof. repeat split; vm_compute; reflexivity. Qed.

End HourlySamples.

(** ** The export, read back *)

Section CsvRoundTrip.
Import PyStr Frames Hourly CsvReader Samples MoreSamples.

Lemma split_on_clean (sep : char) (f : str) :
  Forall (fun c => c <> sep) f -> split_on sep f = [f].
Proof.
  induction 1 as [|c f Hc _ IH]; [reflexivity|]. cbn [split_on].
  destruct (N.eqb_spec c sep) as [E|_]; [contradiction|]. now rewrite IH.
Qed.

Lemma split_on_app (sep : char) (f rest : str) :
  Forall (fun c => c <> sep) f ->
  split_on sep (f ++ sep :: rest) = f :: split_on sep rest.
Proof.
  induction 1 as [|c f Hc _ IH]; cbn [app split_on].
  - now rewrite N.eqb_refl.
  - destruct (N.eqb_spec c sep) as [E|_]; [contradiction|]. now rewrite IH.
Qed.

(** A field without separators. *)
Definition clean (f : str) : Prop := Forall (fun c => c <> 0x2c /\ c <> 0xa) f.

Lemma clean_no_comma (f : str) : clean f -> Forall (fun c => c <> 0x2c) f.
Proof. apply List.Forall_impl. tauto. Qed.

Lemma clean_no_break (f : str) : clean f -> Forall (fun c => c <> 0xa) f.
Proof. apply List.Forall_impl. tauto. Qed.

Lemma join_fields_cons (f g : str) (rest : list str) :
  join_fields (f :: g :: rest) = f ++ 0x2c :: join_fields (g :: rest).
Proof. reflexivity. Qed.

Lemma split_join_fields (fields : list str) :
  fields <> [] -> Forall clean fields ->
  split_on 0x2c (join_fields fields) = fields
  /\ Forall (fun c => c <> 0xa) (join_fields fields).
Proof.
  intros Hne Hclean. induction Hclean as [|f rest Hf Hrest IH]; [congruence|].
  destruct rest as [|g rest].
  - cbn [join_fields]. split; [apply split_on_clean, clean_no_comma, Hf|].
    now apply clean_no_break.
  - rewrite join_fields_cons. destruct IH as [IHs IHb]; [discriminate|].
    split.
    + rewrite split_on_app by now apply clean_no_comma. now rewrite IHs.
    + apply List.Forall_app. split; [now apply clean_no_break|].
      constructor; [discriminate|exact IHb].
Qed.

Lemma split_lines (records : list (list str)) :
  Forall (fun fields => fields <> [] /\ Forall clean fields) records ->
  split_on 0xa (csv_text records) = List.map join_fields records ++ [[]].
Proof.
  unfold csv_text. induction 1 as [|fields rest [Hne Hclean] _ IH]; [reflexivity|].
  cbn [List.map concat app]. rewrite <- List.app_assoc. cbn [app].
  rewrite split_on_app by apply (split_join_fields fields Hne Hclean).
  now rewrite IH.
Qed.

Lemma read_records_csv_text (records : list (list str)) :
  Forall (fun fields => fields <> [] /\ Forall clean fields) records ->
  read_records (csv_text records) = Some records.
Proof.
  intros H. unfold read_records. rewrite (split_lines records H).
  rewrite List.last_last, List.removelast_last. f_equal.
  rewrite List.map_map. induction H as [|fields rest [Hne Hclean] _ IH];
    [reflexivity|].
  cbn [List.map]. rewrite IH. f_equal.
  apply (split_join_fields fields Hne Hclean).
Qed.

(** The characters of a decimal integer. *)
Definition int_char (c : char) : bool :=
  (c =? 0x2d) || ((0x30 <=? c) && (c <=? 0x39)).

Lemma uint_chars (u : Decimal.uint) :
  forallb int_char (U (NilEmpty.string_of_uint u)) = true.
Proof.
  induction u; cbn [NilEmpty.string_of_uint]; [reflexivity|..];
    unfold U in *; cbn [list_ascii_of_string List.map forallb];
    rewrite IHu; reflexivity.
Qed.

Lemma int_repr_chars (z : Z) : forallb int_char (int_repr z) = true.
Proof.
  unfold int_repr. destruct (Z.to_int z) as [u|u]; cbn [NilZero.string_of_int].
  - destruct u; try reflexivity; apply (uint_chars (_ u)).
  - unfold U. cbn [list_ascii_of_string List.map forallb].
    destruct u; try reflexivity; apply (uint_chars (_ u)).
Qed.

Lemma int_repr_no (sep : char) (z : Z) :
  int_char sep = false -> Forall (fun c => c <> sep) (int_repr z).
Proof.
  intros Hsep. pose proof (int_repr_chars z) as H.
  rewrite List.forallb_forall in H. apply List.Forall_forall.
  intros c Hc ->. rewrite (H sep Hc) in Hsep. discriminate.
Qed.

Lemma int_repr_clean (z : Z) : clean (int_repr z).
Proof.
  pose proof (int_repr_no 0x2c z eq_refl) as Hc.
  pose proof (int_repr_no 0xa z eq_refl) as Hb.
  unfold clean. rewrite List.Forall_forall in *. intros c H. split; auto.
Qed.

Lemma U_ascii (s : string) : forallb (fun c => c <? 256) (U s) = true.
Proof.
  unfold U. induction (list_ascii_of_string s) as [|a l IH]; [reflexivity|].
  cbn [List.map forallb]. rewrite IH, andb_true_r.
  apply N.ltb_lt, N_ascii_bounded.
Qed.

Lemma string_of_U (s : string) :
  string_of_list_ascii (List.map ascii_of_N (U s)) = s.
Proof.
  unfold U. rewrite List.map_map.
  rewrite (List.map_ext _ (fun a => a) ascii_N_embedding), List.map_id.
  apply string_of_list_ascii_of_string.
Qed.

Lemma int_of_string_of_int (d : Decimal.signed_int) :
  option_map Z.of_int (NilZero.int_of_string (NilZero.string_of_int d))
  = Some (Z.of_int d).
Proof.
  destruct d as [[|u|u|u|u|u|u|u|u|u|u]|[|u|u|u|u|u|u|u|u|u|u]];
    try (rewrite NilZero.isi by discriminate; reflexivity).
  - now rewrite NilZero.isi_posnil.
  - now rewrite NilZero.isi_negnil.
Qed.

(** The decimal text of an integer reads back as that integer. *)
Lemma read_int_repr (z : Z) : read_int (int_repr z) = Some z.
Proof.
  unfold read_int, int_repr. rewrite U_ascii, string_of_U.
  now rewrite int_of_string_of_int, DecimalZ.of_to.
Qed.

Section ExportText.
Context {RT : Runtime}.
Variable read_float : str -> option float.
Hypothesis Hexact : exact_formatter read_float.

Lemma csv_float_clean (x : float) : clean (csv_float x).
Proof.
  unfold csv_float. destruct (PrimFloat.is_nan x) eqn:Hx; [constructor|].
  apply (Hexact x Hx).
Qed.

Lemma read_field_csv_float (x : float) :
  read_field read_float (csv_float x) = Some (present x).
Proof.
  unfold csv_float, present. destruct (PrimFloat.is_nan x) eqn:Hx; [reflexivity|].
  destruct (Hexact x Hx) as (Hread & Hne & _).
  unfold read_field. destruct (float_repr x) as [|c rest]; [congruence|].
  now rewrite Hread.
Qed.

End ExportText.

(** C7: the export, read back from its text, has the header hour,
    des_demand, undes_demand, supply in this order and one record per row
    of the aggregation, and every number read is the aggregated value
    itself: the hour as written, each float exactly the float of the
    table (nothing where it is missing), with no rounding in between.
    The float formatter is the runtime's; the statement is for one that
    writes a float so that it reads back, as the [repr] that [to_csv]
    uses does. *)
Theorem download_csv_unrounded {RT : Runtime} (daily : list daily_row)
    (names : gmap str str) (hourly : list hourly_row) (selected : option str)
    (read_float : str -> option float) :
  exact_formatter read_float ->
  let table := snd (hourly_long daily names hourly selected) in
  read_hourly_csv read_float
    (csv_text (download_csv daily names hourly selected))
  = Some ([U "hour"; U "des_demand"; U "undes_demand"; U "supply"],
          List.map (fun row => (t_hour row, present (t_des_demand row),
                                present (t_undes_demand row),
                                present (t_supply row))) table).
Proof.
  intros Hexact table. unfold download_csv. fold table.
  generalize table. clear table. intros table.
  unfold read_hourly_csv. rewrite read_records_csv_text.
  - unfold to_csv. cbn [List.map hourly_table_columns].
    replace (mapM (read_row read_float) _)
      with (Some (List.map (fun row => (t_hour row, present (t_des_demand row),
                                        present (t_undes_demand row),
                                        present (t_supply row))) table));
      [reflexivity|].
    symmetry. apply mapM_Some.
    induction table as [|row table IH]; constructor; [|exact IH].
    unfold csv_field. cbn [String.eqb Ascii.eqb Bool.eqb read_row].
    now rewrite read_int_repr, !(read_field_csv_float read_float Hexact).
  - unfold to_csv. constructor.
    + split; [discriminate|]. cbn [List.map hourly_table_columns].
      repeat constructor; discriminate.
    + apply List.Forall_forall. intros fields Hfields.
      apply List.in_map_iff in Hfields as [row [<- _]].
      split; [discriminate|]. cbn [List.map hourly_table_columns].
      unfold csv_field. cbn [String.eqb Ascii.eqb Bool.eqb].
      repeat constructor; try apply int_repr_clean;
        apply (csv_float_clean read_float Hexact).
Qed.

Lemma is_nan_Prim2SF (x : float) :
  PrimFloat.is_nan x = false -> Prim2SF x <> S754_nan.
Proof.
  unfold PrimFloat.is_nan. rewrite FloatAxioms.eqb_spec. intros H E.
  rewrite E in H. discriminate H.
Qed.

(** [exact_repr] is read back by [read_exact]. *)
Lemma exact_runtime_exact : exact_formatter (RT := exact_runtime) read_exact.
Proof.
  intros x Hx. pose proof (is_nan_Prim2SF x Hx) as Hnan.
  pose proof (FloatAxioms.SF2Prim_Prim2SF x) as Hback.
  change (float_repr (Runtime := exact_runtime) x) with (exact_repr x).
  unfold exact_repr. destruct (Prim2SF x) as [sign|sign| |sign m e] eqn:Hsf.
  - rewrite <- Hback. split; [|split]; destruct sign;
      try discriminate; try reflexivity; repeat constructor; discriminate.
  - rewrite <- Hback. split; [|split]; destruct sign;
      try discriminate; try reflexivity; repeat constructor; discriminate.
  - congruence.
  - assert (Hsplit : split_on 0x70 (int_repr (Z.pos m) ++ 0x70 :: int_repr e)
                     = [int_repr (Z.pos m); int_repr e]).
    { rewrite split_on_app by (apply int_repr_no; reflexivity).
      now rewrite split_on_clean by (apply int_repr_no; reflexivity). }
    change (U "p" ++ int_repr e) with (0x70 :: int_repr e).
    change (U "-") with [0x2d]. change (U "+") with [0x2b].
    split; [|split].
    + rewrite <- Hback.
      destruct sign; cbn [app]; unfold read_exact;
        cbn [N.eqb Pos.eqb orb]; rewrite Hsplit, !read_int_repr; reflexivity.
    + destruct sign; discriminate.
    + assert (Hbody : clean (int_repr (Z.pos m) ++ 0x70 :: int_repr e)).
      { apply List.Forall_app. split; [apply int_repr_clean|].
        constructor; [split; discriminate|apply int_repr_clean]. }
      destruct sign; (constructor; [split; discriminate|exact Hbody]).
Qed.

Lemma download_csv_unrounded_witness :
  read_hourly_csv read_exact
    (csv_text (download_csv (RT := exact_runtime) daily_both ∅ hourly_sample
                 (Some (U "18097"))))
  = Some ([U "hour"; U "des_demand"; U "undes_demand"; U "supply"],
          [ (1%Z, Some 1%float, Some 2.5%float, Some 5%float);
            (3%Z, Some 11%float, Some 22%float, Some 5%float) ]).
Proof.
  rewrite (download_csv_unrounded (RT := exact_runtime) daily_both ∅
             hourly_sample (Some (U "18097")) read_exact exact_runtime_exact).
  vm_compute. reflexivity.
Defined.

(** The text of that export, and the same text read by the reader alone:
    the fraction of 2.5 is in the file, where the display columns of the
    map would show 2. *)
Example export_text :
  csv_text (download_csv (RT := exact_runtime) daily_both ∅ hourly_sample
              (Some (U "18097")))
  = U "hour,des_demand,undes_demand,supply" ++ [0xa]
    ++ U "1,+4503599627370496p-52,+5629499534213120p-51,+5629499534213120p-50"
    ++ [0xa]
    ++ U "3,+6192449487634432p-49,+6192449487634432p-48,+5629499534213120p-50"
    ++ [0xa]
  /\ rounded_int (Num 2.5%float) = Int 2.
Proof. split; vm_compute; reflexivity. Qed.

End CsvRoundTrip.

(** ** The diagnosis palette *)

Section Palette.
Import PyStr Diagnosis.

Lemma palette_known :
  default_palette !! near_capacity = Some (U "#f03b20")
  /\ default_palette !! overflow_undesignated = Some (U "#fd8d3c")
  /\ default_palette !! consistent_undesignated = Some (U "#feb24c")
  /\ default_palette !! no_overflow = Some (U "#74c476").
Proof.
  repeat split; vm_compute; reflexivity.
Qed.

Lemma palette_unknown (s : str) :
  s <> near_capacity -> s <> overflow_undesignated ->
  s <> consistent_undesignated -> s <> no_overflow ->
  default_palette !! s = None.
Proof.
  intros H1 H2 H3 H4. unfold default_palette.
  rewrite !lookup_insert_ne by congruence. apply lookup_empty.
Qed.

(** C8: the style function gives each of the four diagnosis labels its
    palette colour, and the gray #8c8c8c to a county whose diagnosis is
    anything else, a missing one included. *)
Theorem diagnosis_style_colors (properties : gmap string json) (other : json) :
  other <> JStr near_capacity ->
  other <> JStr overflow_undesignated ->
  other <> JStr consistent_undesignated ->
  other <> JStr no_overflow ->
  let fill := fun props : gmap string json =>
    fillColor (style_fn None "diagnosis" props) in
  fill (<["diagnosis"%string := JStr near_capacity]> properties) = U "#f03b20"
  /\ fill (<["diagnosis"%string := JStr overflow_undesignated]> properties)
     = U "#fd8d3c"
  /\ fill (<["diagnosis"%string := JStr consistent_undesignated]> properties)
     = U "#feb24c"
  /\ fill (<["diagnosis"%string := JStr no_overflow]> properties) = U "#74c476"
  /\ fill (<["diagnosis"%string := other]> properties) = U "#8c8c8c"
  /\ fill (<["diagnosis"%string := JNull]> properties) = U "#8c8c8c"
  /\ fill (delete "diagnosis"%string properties) = U "#8c8c8c".
Proof.
  intros H1 H2 H3 H4 fill. subst fill. unfold style_fn. cbn [fillColor default].
  rewrite !lookup_insert_eq, lookup_delete_eq.
  destruct palette_known as [K1 [K2 [K3 K4]]].
  unfold palette_get. rewrite K1, K2, K3, K4.
  repeat split.
  destruct other as [|s|x|b]; try reflexivity.
  rewrite palette_unknown by congruence. reflexivity.
Qed.

Lemma diagnosis_style_colors_witness :
  let fill := fun props : gmap string json =>
    fillColor (style_fn None "diagnosis" props) in
  fill (<["diagnosis"%string := JStr near_capacity]> ∅) = U "#f03b20"
  /\ fill (<["diagnosis"%string := JStr overflow_undesignated]> ∅) = U "#fd8d3c"
  /\ fill (<["diagnosis"%string := JStr consistent_undesignated]> ∅)
     = U "#feb24c"
  /\ fill (<["diagnosis"%string := JStr no_overflow]> ∅) = U "#74c476"
  /\ fill (<["diagnosis"%string := JStr (U "Unclassified")]> ∅) = U "#8c8c8c"
  /\ fill (<["diagnosis"%string := JNull]> ∅) = U "#8c8c8c"
  /\ fill (delete "diagnosis"%string ∅) = U "#8c8c8c".
Proof.
  exact (diagnosis_style_colors ∅ (JStr (U "Unclassified"))
           ltac:(vm_compute; discriminate) ltac:(vm_compute; discriminate)
           ltac:(vm_compute; discriminate) ltac:(vm_compute; discriminate)).
Defined.

(** A number or a flag in the diagnosis field is no palette key. *)
Example style_of_number :
  fillColor (style_fn None "diagnosis" {[ "diagnosis"%string := JNum 3%float ]})
  = U "#8c8c8c".
Proof. reflexivity. Qed.

End Palette.

(** * Further properties of the script *)

(** ** The password prompt *)

Section Password.
Import PyStr Frames Auth.

Lemma attempt_stopped (secret : str) (e : bool) (a : option bool)
    (p : option str) (typed : str) :
  attempt secret (Stopped e, mkAuth a p) typed
  = if str_eqb typed secret
    then (Rendered, mkAuth (Some true) None)
    else (Stopped true, mkAuth (Some false) (Some typed)).
Proof.
  unfold attempt, _check. simpl.
  destruct (str_eqb typed secret); reflexivity.
Qed.

Lemma visit_rendered_stays (secret : str) (st : auth_state) (typed : list str) :
  fold_left (attempt secret) typed (Rendered, st) = (Rendered, st).
Proof. induction typed as [|t rest IH]; [reflexivity|exact IH]. Qed.

Lemma visit_from_prompt (secret : str) (typed : list str) :
  forall (e : bool) (a : option bool) (p : option str),
  fold_left (attempt secret) typed (Stopped e, mkAuth a p)
  = if existsb (fun t => str_eqb t secret) typed
    then (Rendered, mkAuth (Some true) None)
    else match typed with
         | [] => (Stopped e, mkAuth a p)
         | _ => (Stopped true, mkAuth (Some false) (Some (List.last typed [])))
         end.
Proof.
  induction typed as [|t rest IH]; intros e a p; [reflexivity|].
  cbn [fold_left existsb]. rewrite attempt_stopped.
  destruct (str_eqb t secret); cbn [orb].
  - apply visit_rendered_stays.
  - rewrite IH. destruct (existsb _ rest); [reflexivity|].
    destruct rest; reflexivity.
Qed.

Lemma visit_eq (secret : str) (typed : list str) :
  visit secret typed
  = if existsb (fun t => str_eqb t secret) typed
    then (Rendered, mkAuth (Some true) None)
    else match typed with
         | [] => (Stopped false, mkAuth None (Some []))
         | _ => (Stopped true, mkAuth (Some false) (Some (List.last typed [])))
         end.
Proof. unfold visit. cbn. apply visit_from_prompt. Qed.

Lemma typed_secret (secret : str) (typed : list str) :
  existsb (fun t => str_eqb t secret) typed = true <-> In secret typed.
Proof.
  rewrite List.existsb_exists. split.
  - intros [t [Ht Heq]]. apply bool_decide_eq_true in Heq. now subst.
  - intros H. exists secret. split; [exact H|]. now apply bool_decide_eq_true.
Qed.

(** X1: the page behind the prompt is rendered exactly when one of the
    entries typed during the visit equals the configured password; before
    anything is typed the prompt is shown without the error line, and
    after wrong entries only, with it. *)
Theorem visit_rendered_iff (secret : str) (typed : list str) :
  (fst (visit secret typed) = Rendered <-> In secret typed)
  /\ (fst (visit secret typed) = Stopped false <-> typed = [])
  /\ (fst (visit secret typed) = Stopped true <->
      typed <> [] /\ ~ In secret typed).
Proof.
  rewrite visit_eq. rewrite <- typed_secret.
  destruct (existsb _ typed) eqn:Hex.
  - repeat split; try discriminate; try tauto.
    intros ->. discriminate Hex.
  - destruct typed as [|t rest]; cbn [fst];
      repeat split; try discriminate; try tauto;
      try (intros [H _]; now contradiction H).
Qed.

(** X2: once the page is rendered the text typed into the prompt is no
    longer in the session state; while the prompt is shown the session
    holds the last entry typed (the empty text before any). *)
Theorem visit_password_dropped (secret : str) (typed : list str) :
  match fst (visit secret typed) with
  | Rendered =>
      snd (visit secret typed) = mkAuth (Some true) None
  | Stopped _ =>
      pw_input (snd (visit secret typed)) = Some (List.last typed [])
      /\ authed (snd (visit secret typed)) <> Some true
  end.
Proof.
  rewrite visit_eq. destruct (existsb _ typed); [reflexivity|].
  destruct typed as [|t rest]; cbn [fst snd pw_input authed];
    split; try reflexivity; discriminate.
Qed.

Example visit_wrong_then_right :
  visit (U "s3cret") [U "guess"; U "s3cret"; U "later"]
  = (Rendered, mkAuth (Some true) None)
  /\ visit (U "s3cret") [U "guess"]
     = (Stopped true, mkAuth (Some false) (Some (U "guess")))
  /\ visit (U "s3cret") [] = (Stopped false, mkAuth None (Some [])).
Proof. repeat split. Qed.

End Password.

(** ** Reachable selections and the chart column *)

Section Reachable.
Import PyStr Session Frames Hourly Page.

Lemma sanitize_ok (raw : str) : selection_ok (Some (sanitize raw)).
Proof.
  rewrite sanitize_spec. split.
  - rewrite left_pad_zeros_length. lia.
  - apply left_pad_zeros_digits, remove_non_digits_all_digits.
Qed.

Lemma script_run_ok (ms : map_state) (pressed : bool) (st : session) :
  selection_ok (selected_fips st) ->
  selection_ok (selected_fips (script_run ms pressed st)).
Proof.
  intros Hst. unfold script_run. destruct pressed; [exact I|].
  unfold process_cycle, read_click, clear_guard.
  destruct (clicked_popup ms) as [raw|], st as [sel [|]]; cbn; try exact Hst.
  apply sanitize_ok.
Qed.

Lemma run_all_ok (inputs : list (map_state * bool)) (st : session) :
  selection_ok (selected_fips st) ->
  selection_ok (selected_fips (run_all inputs st)).
Proof.
  revert st. induction inputs as [|[ms pressed] rest IH]; intros st Hst.
  - exact Hst.
  - cbn [run_all]. apply IH. now apply script_run_ok.
Qed.

Lemma truthy_ok (sel : option str) : selection_ok sel -> truthy sel = sel.
Proof.
  destruct sel as [[|c rest]|]; try reflexivity.
  intros [Hlen _]. simpl in Hlen. lia.
Qed.

(** X3: whatever the clicks and button presses of a session, the stored
    selection is either none or a text of at least five characters, all
    digits; so the truth test of [hourly_long] ([if fips:]) and the test
    of the download label ([is None]) always agree on it. *)
Theorem selection_invariant (inputs : list (map_state * bool)) :
  let selected := selected_fips (run_all inputs init_session) in
  selection_ok selected
  /\ truthy selected = selected
  /\ (selected = None <-> truthy selected = None).
Proof.
  cbv zeta.
  assert (Hok : selection_ok (selected_fips (run_all inputs init_session)))
    by (apply run_all_ok; exact I).
  split; [exact Hok|]. rewrite (truthy_ok _ Hok). split; [reflexivity|tauto].
Qed.

(** X4: in every session the chart column is of one piece.  With no
    selection the title, the table and the download label are the
    statewide ones; with a selection the table is made of that county's
    rows, the title is the county's name (or "County" and the identifier
    when the name table lacks it), and the label quotes that title. *)
Theorem chart_scope_consistent {RT : Runtime} (daily : list daily_row)
    (names : gmap str str) (hourly : list hourly_row)
    (inputs : list (map_state * bool)) :
  let selected := selected_fips (run_all inputs init_session) in
  let chart := chart_of daily names hourly selected in
  match selected with
  | None =>
      chart_title chart = U "Indiana (statewide)"
      /\ csv_label chart = U "Download hourly demand (statewide)"
      /\ hourly_table chart
         = aggregate hourly
             (series_sum (List.map fillna0_float (List.map d_supply daily)))
  | Some fips =>
      chart_title chart = default (U "County " ++ fips) (names !! fips)
      /\ csv_label chart
         = U "Download hourly demand (" ++ chart_title chart ++ U ")"
      /\ hourly_table chart
         = aggregate (List.filter (fun r => str_eqb (h_county r) fips) hourly)
             (series_max (List.map fillna0_float (county_supplies daily fips)))
  end.
Proof.
  cbv zeta.
  assert (Hok : selection_ok (selected_fips (run_all inputs init_session)))
    by (apply run_all_ok; exact I).
  apply truthy_ok in Hok.
  destruct (selected_fips (run_all inputs init_session)) as [fips|].
  - unfold chart_of, hourly_long, title_of, sub_frame, supply_const.
    rewrite Hok. cbn. auto.
  - repeat split.
Qed.

(** X5: an execution that reads the same click again changes nothing:
    with the flag off, running the script twice on one payload leaves the
    session as after the first run. *)
Theorem rerun_same_payload (ms : map_state) (st : session) :
  ignore_next_click st = false ->
  script_run ms false (script_run ms false st) = script_run ms false st.
Proof.
  intros Hflag. unfold script_run, process_cycle, read_click, clear_guard.
  destruct st as [sel flag]. cbn in Hflag. subst flag.
  destruct (clicked_popup ms); reflexivity.
Qed.

Lemma rerun_same_payload_witness :
  script_run (Some (Some (U "county_fips 18097"))) false
    (script_run (Some (Some (U "county_fips 18097"))) false init_session)
  = script_run (Some (Some (U "county_fips 18097"))) false init_session.
Proof.
  exact (rerun_same_payload (Some (Some (U "county_fips 18097"))) init_session
           eq_refl).
Defined.

(** X6: a clear lasts for one execution only while the map keeps
    reporting the old click: pressed with a payload present, the button
    empties the selection, the execution it starts keeps it empty, and the
    execution after that selects the old county again. *)
Theorem clear_undone_by_stale_click (st : session) (c : char) (rest : str) :
  let stale := Some (Some (c :: rest)) in
  run_all [(stale, true)] st = mkSession None true
  /\ run_all [(stale, true); (stale, false)] st = mkSession None false
  /\ run_all [(stale, true); (stale, false); (stale, false)] st
     = mkSession (Some (sanitize (c :: rest))) false.
Proof.
  cbv zeta. destruct st as [sel [|]]; repeat split.
Qed.

End Reachable.

(** ** The long form of the chart *)

Section LongForm.
Import PyStr Frames Hourly Page.

(** The two chart rows of one table row. *)
Definition designated_row (r : table_row) : long_row :=
  mkLong (t_hour r) (U "Designated") (t_des_demand r).

Definition undesignated_row (r : table_row) : long_row :=
  mkLong (t_hour r) (U "Undesignated") (t_undes_demand r).

Definition hour_le (a b : long_row) : Prop := (l_hour a <= l_hour b)%Z.

Lemma replace_type_melt (agg : list table_row) :
  List.map replace_type (melt agg)
  = List.map designated_row agg ++ List.map undesignated_row agg.
Proof.
  unfold melt. rewrite List.map_app, !List.map_map. reflexivity.
Qed.

Lemma insert_long_perm (r : long_row) (l : list long_row) :
  Permutation (insert_long r l) (r :: l).
Proof.
  induction l as [|x rest IH]; simpl; [reflexivity|].
  destruct (l_hour r <=? l_hour x)%Z; [reflexivity|].
  rewrite IH. apply perm_swap.
Qed.

Lemma sort_by_hour_perm (l : list long_row) : Permutation (sort_by_hour l) l.
Proof.
  unfold sort_by_hour. induction l as [|r rest IH]; simpl; [reflexivity|].
  rewrite insert_long_perm. now constructor.
Qed.

Lemma insert_long_sorted (r : long_row) (l : list long_row) :
  StronglySorted hour_le l -> StronglySorted hour_le (insert_long r l).
Proof.
  induction 1 as [|x rest Hrest IH Hx]; simpl.
  - repeat constructor.
  - destruct (Z.leb_spec (l_hour r) (l_hour x)) as [Hle|Hgt].
    + constructor; [now constructor|].
      constructor; [exact Hle|].
      apply List.Forall_forall. intros y Hy.
      rewrite List.Forall_forall in Hx. specialize (Hx y Hy).
      unfold hour_le in *. lia.
    + constructor; [exact IH|].
      apply List.Forall_forall. intros y Hy.
      apply (Permutation_in _ (insert_long_perm r rest)) in Hy.
      destruct Hy as [<-|Hy]; [unfold hour_le; lia|].
      rewrite List.Forall_forall in Hx. now apply Hx.
Qed.

Lemma sort_by_hour_sorted (l : list long_row) :
  StronglySorted hour_le (sort_by_hour l).
Proof.
  unfold sort_by_hour. induction l as [|r rest IH]; simpl.
  - constructor.
  - now apply insert_long_sorted.
Qed.

(** X7: the long form returned beside the table holds, for every row of
    the table, one "Designated" row with that hour and designated demand
    and one "Undesignated" row with that hour and undesignated demand,
    and nothing else; it is ordered by hour. *)
Theorem long_form_of_table {RT : Runtime} (daily : list daily_row)
    (names : gmap str str) (hourly : list hourly_row) (fips : option str) :
  let long_df := snd (fst (hourly_long daily names hourly fips)) in
  let table := snd (hourly_long daily names hourly fips) in
  Permutation long_df
    (List.map designated_row table ++ List.map undesignated_row table)
  /\ StronglySorted hour_le long_df
  /\ length long_df = (2 * length table)%nat.
Proof.
  cbv zeta. unfold hourly_long. cbn [fst snd].
  rewrite replace_type_melt.
  split; [apply sort_by_hour_perm|]. split; [apply sort_by_hour_sorted|].
  rewrite (Permutation_length (sort_by_hour_perm _)).
  rewrite List.length_app, !List.length_map. lia.
Qed.

(** X8: every row the chart draws has a stack order: 0 on a "Designated"
    row and 1 on an "Undesignated" row, and there is no other row. *)
Theorem chart_rows_have_order {RT : Runtime} (daily : list daily_row)
    (names : gmap str str) (hourly : list hourly_row) (fips : option str) :
  Forall (fun drawn : long_row * option Z =>
            (l_type (fst drawn) = U "Designated" /\ snd drawn = Some 0%Z)
            \/ (l_type (fst drawn) = U "Undesignated" /\ snd drawn = Some 1%Z))
    (bars_long (chart_of daily names hourly fips)).
Proof.
  unfold chart_of. cbn [bars_long].
  apply List.Forall_forall. intros [r o] Hin.
  apply List.in_map_iff in Hin as [r' [Heq Hin]]. injection Heq as <- <-.
  unfold hourly_long in Hin. cbn [fst snd] in Hin.
  apply (Permutation_in _ (sort_by_hour_perm _)) in Hin.
  rewrite replace_type_melt in Hin.
  apply List.in_app_or in Hin as [Hin|Hin];
    apply List.in_map_iff in Hin as [row [<- _]]; [left|right]; split; reflexivity.
Qed.

End LongForm.

(** ** County names and titles *)

Section Titles.
Import PyStr Frames Hourly Page.

(** The name in the last row that carries an identifier. *)
Definition last_name (fips : str) (rows : list (str * str)) : option str :=
  option_map snd (List.find (fun row => str_eqb (fst row) fips) (rev rows)).

Lemma find_app {A : Type} (p : A -> bool) (l1 l2 : list A) :
  List.find p (l1 ++ l2)
  = match List.find p l1 with
    | Some a => Some a
    | None => List.find p l2
    end.
Proof.
  induction l1 as [|a l1 IH]; simpl; [reflexivity|].
  destruct (p a); [reflexivity|exact IH].
Qed.

Lemma fips_to_name_from (rows : list (str * str)) (d : gmap str str) (fips : str) :
  fold_left (fun d row => <[ fst row := snd row ]> d) rows d !! fips
  = match last_name fips rows with
    | Some n => Some n
    | None => d !! fips
    end.
Proof.
  revert d. induction rows as [|row rest IH]; intros d; [reflexivity|].
  cbn [fold_left]. rewrite IH. unfold last_name. cbn [rev].
  rewrite find_app.
  destruct (List.find _ (rev rest)) as [q|]; [reflexivity|].
  cbn [List.find option_map]. unfold str_eqb.
  destruct (bool_decide_reflect (fst row = fips)) as [Heq|Hne]; cbn [option_map].
  - rewrite Heq. apply lookup_insert_eq.
  - now apply lookup_insert_ne.
Qed.

Lemma fips_to_name_lookup (rows : list (str * str)) (fips : str) :
  fips_to_name rows !! fips = last_name fips rows.
Proof.
  unfold fips_to_name. rewrite fips_to_name_from, lookup_empty.
  now destruct (last_name fips rows).
Qed.

(** X9: with the name table built from the rows of the joined table, the
    title of a selected county is the name in the last row that carries
    its identifier, and "County" followed by the identifier when no row
    carries it. *)
Theorem title_of_selected {RT : Runtime} (daily : list daily_row)
    (rows : list (str * str)) (hourly : list hourly_row) (c : char) (rest : str) :
  let fips := c :: rest in
  fst (fst (hourly_long daily (fips_to_name rows) hourly (Some fips)))
  = match last_name fips rows with
    | Some name => name
    | None => U "County " ++ fips
    end.
Proof.
  cbv zeta. unfold hourly_long, title_of. cbn [fst truthy].
  rewrite fips_to_name_lookup. now destruct (last_name (c :: rest) rows).
Qed.

Example title_examples :
  let rows := [ (U "18097", U "Marion"); (U "18001", U "Adams");
                (U "18097", U "Marion County") ] in
  title_of (fips_to_name rows) (Some (U "18097")) = U "Marion County"
  /\ title_of (fips_to_name rows) (Some (U "18003")) = U "County 18003"
  /\ title_of (fips_to_name rows) None = U "Indiana (statewide)".
Proof.
  cbv zeta. unfold title_of. cbn [truthy U List.map list_ascii_of_string].
  rewrite !fips_to_name_lookup. repeat split.
Qed.

End Titles.

(** ** Columns through the join stage *)

Section JoinColumns.
Import PyStr Frames Page Samples.

Lemma lookup_col_In (c : string) (l : list (string * series)) (s : series) :
  lookup_col c l = Some s -> In (c, s) l.
Proof.
  induction l as [|[n s0] rest IH]; simpl; [discriminate|].
  destruct (String.eqb n c) eqn:Hn.
  - apply String.eqb_eq in Hn. intros H. injection H as <-. subst. now left.
  - intros H. right. now apply IH.
Qed.

Lemma has_column_set_col (g : frame) (c c' : string) (s : series) :
  has_column c (set_col g c' s) = true <-> c = c' \/ has_column c g = true.
Proof.
  rewrite !has_column_lookup.
  destruct (string_dec c' c) as [->|Hne].
  - rewrite lookup_set_same. split; [now left|eauto].
  - rewrite lookup_set_other by exact Hne. split; [now right|].
    intros [Heq|H]; [congruence|exact H].
Qed.

Lemma has_column_fill {RT : Runtime} (cs : list string) (g : frame) (c : string) :
  has_column c (fill_numeric cs g) = true <-> has_column c g = true.
Proof.
  rewrite !has_column_lookup, lookup_fill_numeric.
  destruct (name_in c cs); [|reflexivity].
  destruct (lookup_col c (cols g)) as [s|]; simpl.
  - split; eauto.
  - split; intros [s Hs]; discriminate.
Qed.

Lemma add_fmt_column_Ok (g g' : frame) (col : string) :
  add_fmt_column g col = Ok g' ->
  exists s, g' = set_col g (col ++ "_fmt") s.
Proof.
  unfold add_fmt_column. destruct (has_column col g).
  - destruct (lookup_col col (cols g)) as [s|]; [|discriminate].
    unfold mbind, result_bind, mret, result_ret.
    destruct (round0_astype_int s) as [ints|e]; [|discriminate].
    intros H. injection H as <-. eauto.
  - intros H. injection H as <-. eauto.
Qed.

(** The display loop only adds or replaces display columns. *)
Lemma add_fmt_columns_columns (ts : list string) (g g' : frame) (c : string) :
  add_fmt_columns ts g = Ok g' ->
  (has_column c g' = true <->
   has_column c g = true \/ exists t, In t ts /\ c = (t ++ "_fmt")%string).
Proof.
  revert g. induction ts as [|t0 ts IH]; intros g; cbn [add_fmt_columns].
  - intros H. injection H as <-. split; [now left|].
    intros [H|[t [[] _]]]. exact H.
  - unfold mbind, result_bind.
    destruct (add_fmt_column g t0) as [g1|e] eqn:H1; [|discriminate].
    intros Hrest. rewrite (IH g1 Hrest).
    destruct (add_fmt_column_Ok _ _ _ H1) as [s ->].
    rewrite has_column_set_col. split.
    + intros [[->|H]|[t [Ht ->]]].
      * right. exists t0. split; [now left|reflexivity].
      * now left.
      * right. exists t. split; [now right|reflexivity].
    + intros [H|[t [[<-|Ht] ->]]].
      * left. now right.
      * left. now left.
      * right. eauto.
Qed.

Lemma nrows_add_fmt_columns (ts : list string) (g g' : frame) :
  add_fmt_columns ts g = Ok g' -> nrows g' = nrows g.
Proof.
  revert g. induction ts as [|t0 ts IH]; intros g; cbn [add_fmt_columns].
  - intros H. now injection H as <-.
  - unfold mbind, result_bind.
    destruct (add_fmt_column g t0) as [g1|e] eqn:H1; [|discriminate].
    intros Hrest. rewrite (IH g1 Hrest).
    destruct (add_fmt_column_Ok _ _ _ H1) as [s ->]. apply nrows_set_col.
Qed.

Lemma join_stage_Ok {RT : Runtime} (counties daily g : frame) :
  join_stage counties daily = Ok g ->
  exists merged,
    merge_left counties daily key = Ok merged
    /\ add_fmt_columns fmt_targets (fill_numeric (num_cols daily) merged) = Ok g.
Proof.
  unfold join_stage, mbind, result_bind.
  destruct (join_and_fill counties daily) as [filled|e] eqn:Hj; [|discriminate].
  destruct (join_and_fill_Ok _ _ _ Hj) as [merged [Hm ->]]. eauto.
Qed.

(** A left column that is the key, or whose name the right frame does not
    have, keeps its name in the merge. *)
Lemma merged_left_column (left right merged : frame) (c : string) :
  merge_left left right key = Ok merged ->
  has_column c left = true ->
  c = key \/ has_column c right = false ->
  has_column c merged = true.
Proof.
  unfold merge_left. intros H Hc Hkeep.
  destruct (lookup_col key (cols left)) as [lk|]; [|discriminate].
  destruct (lookup_col key (cols right)) as [rk|]; [|discriminate].
  destruct (unique_names _) eqn:Hu; [|discriminate].
  injection H as <-.
  apply has_column_lookup in Hc as [s Hs]. apply lookup_col_In in Hs.
  apply has_column_lookup. exists (take_left (left_indexer 0 lk rk) s).
  cbn [cols]. apply lookup_col_unique; [exact Hu|].
  unfold merged_columns. apply List.in_or_app. left.
  apply List.in_map_iff. exists (c, s). split; [|exact Hs]. cbn [fst snd].
  destruct Hkeep as [->|Hr].
  - now rewrite String.eqb_refl.
  - unfold has_column in Hr. rewrite Hr, andb_false_r. reflexivity.
Qed.

Lemma merged_right_present (left right merged : frame) (c : string) :
  merge_left left right key = Ok merged ->
  has_column c right = true ->
  c <> key ->
  has_column c left = false ->
  has_column c merged = true.
Proof.
  intros Hm Hc Hne Hl.
  apply has_column_lookup in Hc as [s Hs]. apply lookup_col_In in Hs.
  destruct (merged_right_column _ _ _ c s Hm Hs Hne Hl) as [lk [rk [_ [_ H]]]].
  apply has_column_lookup. eauto.
Qed.

(** X10: when the join stage succeeds on a geometry table that brings the
    county names and a daily table that brings the diagnosis (neither has
    the other's column), the joined table has every column the tooltip
    and the popup name, so their field check passes. *)
Theorem tooltip_fields_present {RT : Runtime} (counties daily g : frame) :
  join_stage counties daily = Ok g ->
  has_column "county_name" counties = true ->
  has_column "county_name" daily = false ->
  has_column "diagnosis" daily = true ->
  has_column "diagnosis" counties = false ->
  attach_tooltip_and_popup g = true.
Proof.
  intros Hjoin Hn Hn' Hd Hd'.
  destruct (join_stage_Ok _ _ _ Hjoin) as [merged [Hm Hfmt]].
  assert (Hkeep : forall c, has_column c merged = true -> has_column c g = true).
  { intros c Hc. apply (add_fmt_columns_columns _ _ _ c Hfmt). left.
    now apply has_column_fill. }
  assert (Hdisp : forall t, In t fmt_targets ->
            has_column (t ++ "_fmt") g = true).
  { intros t Ht. apply (add_fmt_columns_columns _ _ _ _ Hfmt). right. eauto. }
  assert (Hkey : has_column key g = true).
  { apply Hkeep. destruct (merge_left_Ok _ _ _ Hm) as [lk [rk [Hl _]]].
    apply (merged_left_column _ _ _ key Hm); [|now left].
    apply has_column_lookup. eauto. }
  assert (Hname : has_column "county_name" g = true).
  { apply Hkeep. apply (merged_left_column _ _ _ _ Hm Hn). now right. }
  assert (Hdiag : has_column "diagnosis" g = true).
  { apply Hkeep. apply (merged_right_present _ _ _ _ Hm Hd); [discriminate|exact Hd']. }
  unfold attach_tooltip_and_popup. apply andb_true_intro. split.
  - apply List.forallb_forall. intros f Hf.
    change (List.map snd tooltip_fields)
      with (["county_name"; key]%string
            ++ List.map (fun t => (t ++ "_fmt")%string) fmt_targets
            ++ ["diagnosis"%string]) in Hf.
    apply List.in_app_or in Hf as [[<-|[<-|[]]]|Hf];
      [exact Hname|exact Hkey|].
    apply List.in_app_or in Hf as [Hf|[<-|[]]]; [|exact Hdiag].
    apply List.in_map_iff in Hf as [t [<- Ht]]. now apply Hdisp.
  - change (forallb (fun f => has_column f g) popup_fields)
      with (has_column key g && true).
    now rewrite Hkey.
Qed.

Lemma tooltip_fields_present_witness :
  exists g,
    join_stage (RT := simple_runtime) two_counties daily_plain = Ok g
    /\ attach_tooltip_and_popup g = true.
Proof.
  eexists. split.
  - vm_compute. reflexivity.
  - eapply (tooltip_fields_present (RT := simple_runtime) two_counties daily_plain);
      vm_compute; reflexivity.
Defined.

End JoinColumns.

Section JoinShape.
Import PyStr Frames Page Samples MoreSamples.

Lemma merged_names (left right : frame) (on : string)
    (ix : list (nat * option nat)) (n : string) :
  In n (List.map fst (merged_columns left right on ix)) ->
  (In n (column_names left)
   /\ (n = on \/ name_in n (column_names right) = false))
  \/ (exists c, n = (c ++ "_x")%string)
  \/ (In n (column_names right) /\ name_in n (column_names left) = false)
  \/ (exists c, n = (c ++ "_y")%string).
Proof.
  unfold merged_columns. rewrite List.map_app, !List.map_map. cbn [fst].
  intros H. apply List.in_app_or in H as [H|H];
    apply List.in_map_iff in H as [[c s] [<- Hin]]; cbn [fst].
  - destruct (String.eqb c on) eqn:Hc; cbn [negb andb].
    + left. apply String.eqb_eq in Hc. split; [|now left].
      unfold column_names. apply List.in_map_iff. now exists (c, s).
    + destruct (name_in c (column_names right)) eqn:Hr; [right; left; eauto|].
      left. split; [|now right].
      unfold column_names. apply List.in_map_iff. now exists (c, s).
  - apply List.filter_In in Hin as [Hin _].
    destruct (name_in c (column_names left)) eqn:Hl.
    + right. right. right. eauto.
    + right. right. left. split; [|exact Hl].
      unfold column_names. apply List.in_map_iff. now exists (c, s).
Qed.

(** X11: when both the geometry table and the daily table have a
    county_name column, the merge renames the two (suffixes _x and _y) and
    the joined table has no county_name column at all; the tooltip's field
    check then fails. *)
Theorem county_name_on_both_sides {RT : Runtime} (counties daily g : frame) :
  join_stage counties daily = Ok g ->
  has_column "county_name" counties = true ->
  has_column "county_name" daily = true ->
  has_column "county_name" g = false
  /\ attach_tooltip_and_popup g = false.
Proof.
  intros Hjoin Hl Hr.
  destruct (join_stage_Ok _ _ _ Hjoin) as [merged [Hm Hfmt]].
  assert (Hnone : has_column "county_name" g = false).
  { destruct (has_column "county_name" g) eqn:Hg; [exfalso|reflexivity].
    apply (add_fmt_columns_columns _ _ _ _ Hfmt) in Hg as [Hg|[t [_ Heq]]].
    - apply has_column_fill in Hg.
      destruct (merge_left_Ok _ _ _ Hm) as [lk [rk [_ [_ ->]]]].
      apply name_in_In, merged_names in Hg.
      destruct Hg as [[_ [Hk|Hk]]|[[c Hc]|[[_ Hk]|[c Hc]]]].
      + discriminate Hk.
      + unfold has_column in Hr. congruence.
      + apply (f_equal last_ascii) in Hc.
        rewrite last_ascii_append in Hc. discriminate Hc.
      + unfold has_column in Hl. congruence.
      + apply (f_equal last_ascii) in Hc.
        rewrite last_ascii_append in Hc. discriminate Hc.
    - apply (f_equal last_ascii) in Heq.
      rewrite last_ascii_append in Heq. discriminate Heq. }
  split; [exact Hnone|].
  unfold attach_tooltip_and_popup. cbn [tooltip_fields List.map snd forallb].
  now rewrite Hnone.
Qed.

Lemma county_name_on_both_sides_witness :
  exists g,
    join_stage (RT := simple_runtime) two_counties daily_named = Ok g
    /\ has_column "county_name" g = false
    /\ attach_tooltip_and_popup g = false.
Proof.
  eexists. split.
  - vm_compute. reflexivity.
  - eapply (county_name_on_both_sides (RT := simple_runtime)
              two_counties daily_named);
      vm_compute; reflexivity.
Defined.

Lemma left_join_keys_length (lkeys rkeys : series) :
  (length lkeys <= length (left_join_keys lkeys rkeys))%nat.
Proof.
  unfold left_join_keys. induction lkeys as [|k rest IH]; simpl; [lia|].
  rewrite List.length_app, List.repeat_length. lia.
Qed.

Lemma left_join_keys_single (lkeys rkeys : series) :
  (forall k, In k lkeys -> (length (matching_rows k 0 rkeys) <= 1)%nat) ->
  left_join_keys lkeys rkeys = lkeys.
Proof.
  unfold left_join_keys. induction lkeys as [|k rest IH]; intros H; [reflexivity|].
  cbn [flat_map]. rewrite IH by (intros k' Hk'; apply H; now right).
  replace (Nat.max 1 (length (matching_rows k 0 rkeys))) with 1%nat; [reflexivity|].
  specialize (H k (or_introl eq_refl)). lia.
Qed.

Lemma left_join_keys_double (lkeys rkeys : series) (k : cell) :
  In k lkeys -> (2 <= length (matching_rows k 0 rkeys))%nat ->
  (length lkeys < length (left_join_keys lkeys rkeys))%nat.
Proof.
  unfold left_join_keys. induction lkeys as [|k0 rest IH]; intros Hin Hk; [destruct Hin|].
  cbn [flat_map]. rewrite List.length_app, List.repeat_length. simpl.
  destruct Hin as [->|Hin].
  - pose proof (left_join_keys_length rest rkeys) as Hle.
    unfold left_join_keys in Hle. lia.
  - specialize (IH Hin Hk). lia.
Qed.

(** X12: the joined table never has fewer rows than the geometry table
    has counties.  When no county has two rows in the daily table it has
    exactly one row per county, with the identifiers in the order of the
    geometry table; a county with two or more daily rows makes it
    longer. *)
Theorem joined_row_count {RT : Runtime}
    (counties daily g : frame) (lkeys rkeys : series) :
  join_and_fill counties daily = Ok g ->
  lookup_col key (cols counties) = Some lkeys ->
  lookup_col key (cols daily) = Some rkeys ->
  (length lkeys <= nrows g)%nat
  /\ ((forall k, In k lkeys -> (length (matching_rows k 0 rkeys) <= 1)%nat) ->
      nrows g = length lkeys /\ lookup_col key (cols g) = Some lkeys)
  /\ (forall k, In k lkeys -> (2 <= length (matching_rows k 0 rkeys))%nat ->
      (length lkeys < nrows g)%nat).
Proof.
  intros Hjoin Hl Hr.
  destruct (join_and_fill_Ok _ _ _ Hjoin) as [merged [Hm ->]].
  destruct (merge_left_Ok _ _ _ Hm) as [lk [rk [Hl' [Hr' ->]]]].
  assert (lk = lkeys) by congruence. assert (rk = rkeys) by congruence.
  subst lk rk.
  assert (Hrows : nrows (fill_numeric (num_cols daily)
                    (mkFrame (length (left_indexer 0 lkeys rkeys))
                       (merged_columns counties daily key
                          (left_indexer 0 lkeys rkeys))))
                  = length (left_join_keys lkeys rkeys)).
  { rewrite nrows_fill_numeric. cbn [nrows].
    rewrite <- (take_left_indexer rkeys [] lkeys).
    symmetry. apply take_left_length. }
  assert (Hkey : lookup_col key (cols (fill_numeric (num_cols daily)
                    (mkFrame (length (left_indexer 0 lkeys rkeys))
                       (merged_columns counties daily key
                          (left_indexer 0 lkeys rkeys)))))
                 = Some (left_join_keys lkeys rkeys)).
  { rewrite lookup_fill_numeric, key_not_numeric. cbn [cols].
    now apply merged_key_column. }
  rewrite Hrows, Hkey. split; [apply left_join_keys_length|]. split.
  - intros Hone. now rewrite (left_join_keys_single _ _ Hone).
  - intros k. apply left_join_keys_double.
Qed.

Lemma joined_row_count_witness :
  (2 <= nrows (filled_of (Num 12%float) (Num 0%float)))%nat
  /\ ((forall k, In k [Text (U "18097"); Text (U "18001")] ->
         (length (matching_rows k 0 [Text (U "18097")]) <= 1)%nat) ->
      nrows (filled_of (Num 12%float) (Num 0%float)) = 2%nat
      /\ lookup_col key (cols (filled_of (Num 12%float) (Num 0%float)))
         = Some [Text (U "18097"); Text (U "18001")])
  /\ (forall k, In k [Text (U "18097"); Text (U "18001")] ->
      (2 <= length (matching_rows k 0 [Text (U "18097")]))%nat ->
      (2 < nrows (filled_of (Num 12%float) (Num 0%float)))%nat).
Proof.
  apply (joined_row_count (RT := simple_runtime) two_counties daily_plain
           (filled_of (Num 12%float) (Num 0%float))
           [Text (U "18097"); Text (U "18001")] [Text (U "18097")]).
  - vm_compute. reflexivity.
  - reflexivity.
  - reflexivity.
Defined.

Lemma replace_col_names (c : string) (s : series) (l : list (string * series)) :
  List.map fst (replace_col c s l) = List.map fst l.
Proof.
  induction l as [|[n old] rest IH]; simpl; [reflexivity|].
  destruct (String.eqb n c); simpl; congruence.
Qed.

Lemma coerce_column_names {RT : Runtime} (g : frame) (c : string) :
  column_names (coerce_column g c) = column_names g.
Proof.
  unfold coerce_column. destruct (has_column c g) eqn:Hc; [|reflexivity].
  destruct (lookup_col c (cols g)); [|reflexivity].
  unfold set_col. rewrite Hc. unfold column_names. cbn [cols].
  apply replace_col_names.
Qed.

(** X13: the numeric coercion keeps the shape of the joined table: the
    same columns in the same order and the same number of rows, and every
    column that is not a numeric column of the daily table (the
    identifier, the diagnosis, whatever the geometry table brought) is
    left exactly as the merge produced it. *)
Theorem coercion_keeps_other_columns {RT : Runtime} (daily merged : frame) :
  let filled := fill_numeric (num_cols daily) merged in
  column_names filled = column_names merged
  /\ nrows filled = nrows merged
  /\ lookup_col key (cols filled) = lookup_col key (cols merged)
  /\ lookup_col "diagnosis" (cols filled) = lookup_col "diagnosis" (cols merged)
  /\ (forall c, ~ In c (column_names daily) ->
        lookup_col c (cols filled) = lookup_col c (cols merged)).
Proof.
  cbv zeta. split; [|split; [apply nrows_fill_numeric|]].
  - unfold fill_numeric. generalize (num_cols daily) as cs. intros cs. revert merged.
    induction cs as [|c cs IH]; intros merged; [reflexivity|].
    cbn [fold_left]. now rewrite IH, coerce_column_names.
  - assert (Hout : forall c, name_in c (num_cols daily) = false ->
              lookup_col c (cols (fill_numeric (num_cols daily) merged))
              = lookup_col c (cols merged)).
    { intros c Hc. now rewrite lookup_fill_numeric, Hc. }
    split; [apply Hout, key_not_numeric|]. split.
    + apply Hout. destruct (name_in "diagnosis" (num_cols daily)) eqn:H; [|reflexivity].
      apply name_in_In in H. unfold num_cols in H.
      apply List.filter_In in H as [_ H]. discriminate H.
    + intros c Hc. apply Hout.
      destruct (name_in c (num_cols daily)) eqn:H; [|reflexivity].
      apply name_in_In in H. unfold num_cols in H.
      apply List.filter_In in H as [H _]. contradiction.
Qed.

End JoinShape.

(** ** More on the hourly table *)

Section TableShape.
Import PyStr Frames Hourly Samples MoreSamples.

Lemma group_hours_length (sub : list hourly_row) :
  (length (group_hours sub) <= length sub)%nat.
Proof.
  unfold group_hours. induction sub as [|r rest IH]; simpl; [lia|].
  assert (H : forall h hs, (length (insert_hour h hs) <= S (length hs))%nat).
  { intros h hs. induction hs as [|x hs IHhs]; simpl; [lia|].
    destruct (h <? x)%Z; [simpl; lia|].
    destruct (h =? x)%Z; simpl; lia. }
  specialize (H (h_hour r) (fold_right insert_hour [] (List.map h_hour rest))).
  lia.
Qed.

(** X14: the rows of the table come in strictly increasing order of the
    hour, whatever the order of the hourly data, and they are never more
    than the hourly rows of the selection. *)
Theorem table_ascending {RT : Runtime} (daily : list daily_row)
    (names : gmap str str) (hourly : list hourly_row) (fips : option str) :
  let table := snd (hourly_long daily names hourly fips) in
  StronglySorted Z.lt (List.map t_hour table)
  /\ (length table <= length (sub_frame hourly fips))%nat
  /\ (length table <= length hourly)%nat.
Proof.
  cbv zeta. rewrite snd_hourly_long.
  split; [rewrite aggregate_hours; apply group_hours_sorted|].
  assert (Hlen : (length (aggregate (sub_frame hourly fips)
                            (supply_const daily fips))
                  <= length (sub_frame hourly fips))%nat).
  { unfold aggregate. rewrite List.length_map. apply group_hours_length. }
  split; [exact Hlen|].
  assert (Hsub : (length (sub_frame hourly fips) <= length hourly)%nat).
  { unfold sub_frame. destruct (truthy fips); [apply List.filter_length_le|lia]. }
  lia.
Qed.

(** X15: a selection that no hourly row belongs to (the "00000" of a
    click without digits, say) gives an empty table and an empty long
    form, and the export is the header line alone. *)
Theorem selection_without_rows {RT : Runtime} (daily : list daily_row)
    (names : gmap str str) (hourly : list hourly_row) (fips : str) :
  fips <> [] ->
  (forall r, In r hourly -> h_county r <> fips) ->
  snd (hourly_long daily names hourly (Some fips)) = []
  /\ snd (fst (hourly_long daily names hourly (Some fips))) = []
  /\ csv_text (download_csv daily names hourly (Some fips))
     = U "hour,des_demand,undes_demand,supply" ++ [0xa].
Proof.
  intros Hfips Hnone.
  assert (Hsub : sub_frame hourly (Some fips) = []).
  { unfold sub_frame. destruct fips as [|c rest]; [congruence|]. cbn [truthy].
    induction hourly as [|r l IH]; [reflexivity|]. cbn [List.filter].
    destruct (str_eqb (h_county r) (c :: rest)) eqn:Hr.
    - apply str_eqb_eq in Hr. exfalso. apply (Hnone r); [now left|exact Hr].
    - apply IH. intros r' Hr'. apply Hnone. now right. }
  unfold download_csv, hourly_long. cbn [fst snd]. rewrite Hsub.
  repeat split.
Qed.

Lemma selection_without_rows_witness :
  snd (hourly_long (RT := simple_runtime) daily_sample ∅ hourly_sample
         (Some (U "00000"))) = []
  /\ snd (fst (hourly_long (RT := simple_runtime) daily_sample ∅ hourly_sample
                 (Some (U "00000")))) = []
  /\ csv_text (download_csv (RT := simple_runtime) daily_sample ∅ hourly_sample
                 (Some (U "00000")))
     = U "hour,des_demand,undes_demand,supply" ++ [0xa].
Proof.
  apply (selection_without_rows (RT := simple_runtime) daily_sample ∅
           hourly_sample (U "00000")).
  - discriminate.
  - intros r Hr. repeat (destruct Hr as [<-|Hr]; [vm_compute; discriminate|]).
    destruct Hr.
Defined.

(** X16: for a selected county the supply constant is missing exactly
    when no row of the daily table carries the county's identifier;
    otherwise it is the supply entry of one of the rows that carry it, a
    blank entry read as zero (with several rows, the one [max] picks), and
    so it is not missing. *)
Theorem supply_missing_iff {RT : Runtime} (daily : list daily_row) (fips : str) :
  fips <> [] ->
  (PrimFloat.is_nan (supply_const daily (Some fips)) = true
   /\ Forall (fun r => d_county_fips r <> Text fips) daily)
  \/ (PrimFloat.is_nan (supply_const daily (Some fips)) = false
      /\ exists r, In r daily /\ d_county_fips r = Text fips
                   /\ supply_const daily (Some fips) = fillna0_float (d_supply r)).
Proof.
  intros Hfips.
  destruct (supply_const_selected daily fips Hfips)
    as [[Hnan Hnone]|(r & Hin & Hkey & Hc)].
  - left. split; [now rewrite Hnan|]. now apply List.Forall_forall.
  - right. split; [rewrite Hc; apply fillna0_float_not_nan|eauto].
Qed.

Lemma supply_missing_iff_witness :
  PrimFloat.is_nan
    (supply_const (RT := simple_runtime) daily_both (Some (U "18097"))) = false
  /\ exists r, In r daily_both /\ d_county_fips r = Text (U "18097")
               /\ supply_const (RT := simple_runtime) daily_both (Some (U "18097"))
                  = fillna0_float (d_supply r).
Proof.
  destruct (supply_missing_iff (RT := simple_runtime) daily_both (U "18097")
              ltac:(discriminate)) as [[Hnan _]|Hrow].
  - vm_compute in Hnan. discriminate Hnan.
  - exact Hrow.
Defined.

(** The county of the sample has supply 5 among rows of 7 and 9 that are
    not its own; a county without a row has none. *)
Example supply_const_samples :
  supply_const (RT := simple_runtime) daily_both (Some (U "18097")) = 5%float
  /\ PrimFloat.is_nan
       (supply_const (RT := simple_runtime) daily_both (Some (U "18003"))) = true.
Proof. split; vm_compute; reflexivity. Qed.

End TableShape.

(** ** Overlays *)

Section OverlayFacts.
Import PyStr Frames Overlays Samples MoreSamples.


(** The geometry of a row that gets a marker: a point that is not
    empty. *)
Definition drawable (r : option geometry) : option geometry :=
  match r with
  | Some g => if is_point r && negb (is_empty g) then Some g else None
  | None => None
  end.

Lemma spot_markers_filter (rows : overlay) :
  spot_markers (List.filter is_point rows)
  = List.map (fun g => CircleMarker (y g) (x g)) (omap drawable rows).
Proof.
  unfold spot_markers. induction rows as [|r rows IH]; [reflexivity|].
  destruct r as [[ty e gx gy]|]; [|exact IH].
  destruct ty, e; cbn; try exact IH; now rewrite IH.
Qed.

Lemma filter_nil_existsb {A : Type} (p : A -> bool) (l : list A) :
  List.filter p l = [] <-> existsb p l = false.
Proof.
  induction l as [|a l IH]; simpl; [tauto|].
  destruct (p a); simpl; [split; discriminate|exact IH].
Qed.

(** X18: loading the spots and adding their layer, taken together.  A
    file that is missing or cannot be read leaves the map as it was and
    gives one notice.  A file that was read gives no notice; if it has a
    row with a point geometry, one "Truck parking spots" group is put on
    top of the map, holding one marker per point that is not empty, in
    file order, at latitude y and longitude x; with no such row the map is
    left as it was. *)
Theorem spots_on_the_map (path : file_path) (f : file_state) (m : list layer) :
  let loaded := load_spots path f in
  add_truck_spots_layer m (fst loaded)
  = match f with
    | Read rows =>
        if existsb is_point rows
        then m ++ [ FeatureGroup (U "Truck parking spots")
                      (List.map (fun g => CircleMarker (y g) (x g))
                         (omap drawable rows)) ]
        else m
    | _ => m
    end
  /\ length (notices (snd loaded) None)
     = match f with Read _ => 0%nat | _ => 1%nat end.
Proof.
  cbv zeta. destruct f as [|e|rows]; cbn [load_spots fst snd];
    try (split; reflexivity).
  split; [|reflexivity]. unfold add_truck_spots_layer.
  destruct (List.filter is_point rows) as [|r rest] eqn:Hf.
  - apply filter_nil_existsb in Hf. now rewrite Hf.
  - assert (Hex : existsb is_point rows = true).
    { destruct (existsb is_point rows) eqn:H; [reflexivity|].
      apply filter_nil_existsb in H. congruence. }
    rewrite Hex, <- Hf, spot_markers_filter. reflexivity.
Qed.


Lemma key_of_label_targets (label : str) (k : string) :
  key_of_label label metric_label_to_key = Some k -> In k fmt_targets.
Proof.
  unfold metric_label_to_key. cbn [key_of_label].
  repeat (destruct (str_eqb _ label);
          [intros H; injection H as <-; cbn; tauto|]).
  discriminate.
Qed.

Lemma key_of_label_option (label : str) :
  In label labels_numeric ->
  exists k, key_of_label label metric_label_to_key = Some k
            /\ In (label, k) metric_label_to_key
            /\ str_eqb label (U "Diagnosis") = false.
Proof.
  intros H. unfold labels_numeric, metric_label_to_key in H. cbn [List.map fst] in H.
  repeat (destruct H as [<-|H];
          [eexists; split; [vm_compute; reflexivity|];
           split; [cbn; tauto|vm_compute; reflexivity]|]).
  destruct H.
Qed.

Lemma layers_in_order (base : layer) (road_gdf spots_gdf : option overlay) :
  add_truck_spots_layer
    (add_roadways_layer [base; CountiesGeoJson] road_gdf) spots_gdf
  ++ [LayerControl]
  = [base; CountiesGeoJson]
    ++ add_roadways_layer [] road_gdf
    ++ add_truck_spots_layer [] spots_gdf
    ++ [LayerControl].
Proof.
  destruct road_gdf as [[|r rs]|], spots_gdf as [[|s ss]|]; cbn;
    try reflexivity.
Qed.

(** X20: the map object for an option of the metric selector.  For
    "Diagnosis" it is made whatever the columns of the joined table.  For
    a metric it is made exactly when the joined table has the identifier
    column and the column of that metric, a metric that also has a
    display column; without one of the two the choropleth raises a
    KeyError and there is no map.  A map that is made has its layers in
    one fixed order: the base layer, the county layer with tooltip and
    popup right above it, then the roadways and the spots where they were
    added, and the layer control last. *)
Theorem page_map_layers (gdf_joined : frame) (label : str)
    (road_gdf spots_gdf : option overlay) :
  In label selector_options ->
  exists base needed,
    ((label = U "Diagnosis" /\ base = DiagnosisGeoJson /\ needed = [])
     \/ (exists k, In (label, k) metric_label_to_key /\ In k fmt_targets
                   /\ base = Choropleth k label
                   /\ needed = ["county_fips"%string; k]))
    /\ page_map gdf_joined label road_gdf spots_gdf
       = if forallb (fun c => has_column c gdf_joined) needed
         then Ok ([base; CountiesGeoJson]
                  ++ add_roadways_layer [] road_gdf
                  ++ add_truck_spots_layer [] spots_gdf
                  ++ [LayerControl])
         else Raise KeyError.
Proof.
  intros Hlabel. unfold page_map, base_layer.
  destruct Hlabel as [<-|Hlabel].
  - exists DiagnosisGeoJson, []. split; [left; auto|].
    replace (str_eqb (U "Diagnosis") (U "Diagnosis")) with true
      by (vm_compute; reflexivity).
    cbn [forallb]. unfold make_categorical_map. cbn [mbind result_bind mret result_ret].
    now rewrite layers_in_order.
  - destruct (key_of_label_option label Hlabel) as (k & Hk & Hin & Hd).
    exists (Choropleth k label), ["county_fips"%string; k].
    split; [right; exists k; repeat split; auto;
            now apply (key_of_label_targets label)|].
    rewrite Hd, Hk. unfold make_numeric_choropleth. cbn [forallb].
    rewrite andb_true_r.
    destruct (has_column "county_fips" gdf_joined && has_column k gdf_joined);
      cbn [mbind result_bind mret result_ret]; [|reflexivity].
    now rewrite layers_in_order.
Qed.

Lemma page_map_layers_witness :
  exists base needed,
    ((U "Supply (hourly fixed)" = U "Diagnosis"
      /\ base = DiagnosisGeoJson /\ needed = [])
     \/ (exists k, In (U "Supply (hourly fixed)", k) metric_label_to_key
                   /\ In k fmt_targets
                   /\ base = Choropleth k (U "Supply (hourly fixed)")
                   /\ needed = ["county_fips"%string; k]))
    /\ page_map (filled_of (Num 12%float) (Num 3%float))
         (U "Supply (hourly fixed)") (Some sample_roads) (Some sample_spots)
       = if forallb (fun c => has_column c (filled_of (Num 12%float) (Num 3%float)))
              needed
         then Ok ([base; CountiesGeoJson]
                  ++ add_roadways_layer [] (Some sample_roads)
                  ++ add_truck_spots_layer [] (Some sample_spots)
                  ++ [LayerControl])
         else Raise KeyError.
Proof.
  apply (page_map_layers (filled_of (Num 12%float) (Num 3%float))
           (U "Supply (hourly fixed)") (Some sample_roads) (Some sample_spots)).
  vm_compute. tauto.
Defined.

(** The same table has no column for the accumulated total demand:
    choosing that metric raises, while "Diagnosis" and "Supply" give the
    five layers. *)
Example page_map_samples :
  page_map (filled_of (Num 12%float) (Num 3%float))
    (U "Acc. total demand (truck-hours)") (Some sample_roads) (Some sample_spots)
  = Raise KeyError
  /\ page_map (filled_of (Num 12%float) (Num 3%float))
       (U "Supply (hourly fixed)") (Some sample_roads) (Some sample_spots)
     = Ok [ Choropleth "supply" (U "Supply (hourly fixed)");
            CountiesGeoJson;
            FeatureGroup (U "Roadways") [GeoJsonLines sample_roads];
            FeatureGroup (U "Truck parking spots") [CircleMarker 39.5 (-86.25)];
            LayerControl ]
  /\ page_map (filled_of (Num 12%float) (Num 3%float))
       (U "Diagnosis") None None
     = Ok [ DiagnosisGeoJson; CountiesGeoJson; LayerControl ].
Proof. repeat split; vm_compute; reflexivity. Qed.

End OverlayFacts.

(** ** The loaders *)

Section LoaderFacts.
Import PyStr Session Frames Hourly Loaders Samples MoreSamples.

Lemma zfill_length (width : nat) (s : str) :
  length (zfill width s) = Nat.max width (length s).
Proof.
  unfold zfill. destruct (width - length s)%nat as [|k] eqn:Hk; [lia|].
  destruct s as [|c rest]; simpl in *.
  - rewrite List.repeat_length. lia.
  - destruct (is_sign c); simpl;
      rewrite List.length_app, List.repeat_length; simpl; lia.
Qed.

Lemma zfill_long (width : nat) (s : str) :
  (width <= length s)%nat -> zfill width s = s.
Proof.
  intros H. unfold zfill.
  now replace (width - length s)%nat with 0%nat by lia.
Qed.

Lemma zfill_idempotent (width : nat) (s : str) :
  zfill width (zfill width s) = zfill width s.
Proof. apply zfill_long. rewrite zfill_length. lia. Qed.

Lemma zfill_keeps (width : nat) (s : str) (c : char) :
  In c s -> In c (zfill width s).
Proof.
  intros Hc. unfold zfill. destruct (width - length s)%nat as [|k]; [exact Hc|].
  destruct s as [|c0 rest]; [destruct Hc|].
  destruct (is_sign c0).
  - destruct Hc as [<-|Hc]; [now left|].
    right. apply List.in_or_app. now right.
  - apply List.in_or_app. now right.
Qed.

Lemma set_col_same (g : frame) (c : string) (s : series) :
  lookup_col c (cols g) = Some s -> set_col g c s = g.
Proof.
  intros Hs. unfold set_col.
  replace (has_column c g) with true
    by (symmetry; apply has_column_lookup; eauto).
  destruct g as [n l]. cbn [nrows cols] in *. f_equal.
  induction l as [|[n0 s0] rest IH]; [reflexivity|]. simpl in *.
  destruct (String.eqb n0 c); [congruence|]. f_equal. now apply IH.
Qed.

Lemma set_col_names (g : frame) (c : string) (s : series) :
  has_column c g = true -> column_names (set_col g c s) = column_names g.
Proof.
  intros Hc. unfold set_col. rewrite Hc. apply replace_col_names.
Qed.

Lemma zfill_entry_cases (astype_str : cell -> str) (v : cell) :
  (isna v = true /\ zfill_entry astype_str v = missing)
  \/ (isna v = false
      /\ zfill_entry astype_str v = Text (zfill 5 (astype_str v))
      /\ (5 <= length (zfill 5 (astype_str v)))%nat).
Proof.
  unfold zfill_entry. destruct (isna v); [left; now split|right].
  split; [reflexivity|]. split; [reflexivity|]. rewrite zfill_length. lia.
Qed.

(** X21: [load_counties] raises exactly when the table has no
    county_fips column.  Otherwise it returns the table with the same
    rows, the same columns in the same order and every other column
    untouched.  An identifier that is missing stays missing; every other
    identifier becomes a text of at least five characters, the text of
    the entry zero-filled to five. *)
Theorem load_counties_result (astype_str : cell -> str) (gdf : frame) :
  match load_counties astype_str gdf with
  | Fails e =>
      e = MissingColumn "county_fips" /\ has_column "county_fips" gdf = false
  | Loaded g =>
      nrows g = nrows gdf
      /\ column_names g = column_names gdf
      /\ (forall c, c <> "county_fips"%string ->
            lookup_col c (cols g) = lookup_col c (cols gdf))
      /\ exists ids ids',
           lookup_col "county_fips" (cols gdf) = Some ids
           /\ lookup_col "county_fips" (cols g) = Some ids'
           /\ Forall2 (fun v v' =>
                         match v with
                         | Num x =>
                             if PrimFloat.is_nan x then v' = Num nan
                             else v' = Text (zfill 5 (astype_str v))
                                  /\ (5 <= length (zfill 5 (astype_str v)))%nat
                         | _ =>
                             v' = Text (zfill 5 (astype_str v))
                             /\ (5 <= length (zfill 5 (astype_str v)))%nat
                         end) ids ids'
  end.
Proof.
  unfold load_counties.
  destruct (lookup_col "county_fips" (cols gdf)) as [ids|] eqn:Hids.
  - split; [apply nrows_set_col|].
    split; [apply set_col_names, has_column_lookup; eauto|].
    split; [intros c Hc; apply lookup_set_other; congruence|].
    exists ids, (zfill_column astype_str ids).
    split; [reflexivity|]. split; [apply lookup_set_same|].
    unfold zfill_column. clear Hids.
    induction ids as [|v ids IH]; constructor; [|exact IH].
    destruct (zfill_entry_cases astype_str v) as [[Hna ->]|[Hna [-> Hlen]]];
      destruct v as [x| | |]; cbn [isna] in Hna; try discriminate Hna;
      try rewrite Hna; auto.
  - split; [reflexivity|]. now apply lookup_col_None.
Qed.

(** X22: loading a county table that was already loaded changes
    nothing, provided the text of a text entry is the entry itself. *)
Theorem load_counties_twice (astype_str : cell -> str) (gdf g : frame) :
  (forall t, astype_str (Text t) = t) ->
  load_counties astype_str gdf = Loaded g ->
  load_counties astype_str g = Loaded g.
Proof.
  intros Htext. unfold load_counties.
  destruct (lookup_col "county_fips" (cols gdf)) as [ids|]; [|discriminate].
  intros H. injection H as <-. rewrite lookup_set_same. f_equal.
  apply set_col_same. rewrite lookup_set_same. f_equal.
  unfold zfill_column. rewrite List.map_map. apply List.map_ext.
  intros v.
  destruct (zfill_entry_cases astype_str v) as [[_ ->]|[_ [-> _]]];
    [reflexivity|].
  unfold zfill_entry. cbn [isna]. now rewrite Htext, zfill_idempotent.
Qed.

Lemma load_counties_twice_witness :
  load_counties str_of_cell two_counties = Loaded two_counties.
Proof.
  exact (load_counties_twice str_of_cell two_counties two_counties
           (fun t => eq_refl) eq_refl).
Defined.

(** A county file with a null identifier: the null is still missing
    after the load, the number beside it is zero-filled text. *)
Example load_counties_gap :
  load_counties str_of_cell counties_with_gap
  = Loaded (mkFrame 2
              [ ("county_fips"%string, [Text (U "01001"); Num nan]);
                ("county_name"%string, [Text (U "Autauga"); Text (U "Nowhere")]) ]).
Proof. vm_compute. reflexivity. Qed.

Lemma filter_no_digit (l : str) :
  Forall (fun c => re_d c = false) l -> remove_non_digits l = [].
Proof.
  unfold remove_non_digits. induction 1 as [|c l Hc _ IH]; [reflexivity|].
  cbn [List.filter]. now rewrite Hc.
Qed.

Lemma filter_all_digits (l : str) :
  all_digits l -> remove_non_digits l = l.
Proof.
  unfold remove_non_digits, all_digits. induction 1 as [|c l Hc _ IH]; [reflexivity|].
  cbn [List.filter]. rewrite Hc. now f_equal.
Qed.

Lemma remove_non_digits_app (a b : str) :
  remove_non_digits (a ++ b) = remove_non_digits a ++ remove_non_digits b.
Proof. unfold remove_non_digits. apply List.filter_app. Qed.

(** X23: the identifier a click selects is the identifier the loaders
    stored exactly when that identifier is all digits.  For an identifier
    shown in the popup with any text without digits around it, the
    selection is the zero-filled identifier itself if and only if the
    identifier is all digits; and whatever the popup says, a click never
    selects a zero-filled identifier that has another character in it. *)
Theorem click_selects_stored_identifier (ident before after : str) :
  Forall (fun c => re_d c = false) before ->
  Forall (fun c => re_d c = false) after ->
  (sanitize (before ++ zfill 5 ident ++ after) = zfill 5 ident
   <-> all_digits ident)
  /\ (forall raw, sanitize raw = zfill 5 ident -> all_digits ident).
Proof.
  intros Hb Ha.
  assert (Hnever : forall raw, sanitize raw = zfill 5 ident -> all_digits ident).
  { intros raw Heq.
    assert (Hall : all_digits (zfill 5 ident)).
    { rewrite <- Heq, sanitize_spec.
      apply left_pad_zeros_digits, remove_non_digits_all_digits. }
    unfold all_digits in *. rewrite List.Forall_forall in *.
    intros c Hc. apply Hall. now apply zfill_keeps. }
  split; [split; [apply Hnever|]|exact Hnever].
  intros Hd. rewrite sanitize_spec, !remove_non_digits_app.
  rewrite (filter_no_digit _ Hb), (filter_no_digit _ Ha), List.app_nil_r.
  cbn [app]. rewrite (zfill_digits 5 ident Hd).
  rewrite (filter_all_digits _ (left_pad_zeros_digits 5 ident Hd)).
  apply left_pad_zeros_long. rewrite left_pad_zeros_length. lia.
Qed.

Lemma click_selects_stored_identifier_witness :
  sanitize (U "county_fips " ++ zfill 5 (U "1001") ++ U " ") = U "01001".
Proof.
  apply (click_selects_stored_identifier (U "1001") (U "county_fips ") (U " ")).
  - repeat constructor.
  - repeat constructor.
  - repeat constructor.
Defined.

Lemma strip_lower_hourly_names :
  strip_lower "county" = "county"%string
  /\ strip_lower "hour" = "hour"%string
  /\ strip_lower "des_demand" = "des_demand"%string
  /\ strip_lower "undes_demand" = "undes_demand"%string
  /\ strip_lower "supply" = "supply"%string.
Proof. vm_compute. repeat split. Qed.

Section Hourly_loader.
Variable astype_str : cell -> str.
Variable astype_int : cell -> option Z.
Context {RT : Runtime}.

Definition loaded_hourly (n : nat) (c1 c3 c4 c5 : series) (hours : list Z) : frame :=
  mkFrame n
    [ ("county"%string, List.map (zfill_entry astype_str) c1);
      ("hour"%string, List.map Int hours);
      ("des_demand"%string, List.map (fun v => fillna0 (to_numeric_coerce v)) c3);
      ("undes_demand"%string, List.map (fun v => fillna0 (to_numeric_coerce v)) c4);
      ("supply"%string, List.map (fun v => fillna0 (to_numeric_coerce v)) c5) ].

Lemma load_hourly_five (raw : frame) n1 c1 n2 c2 n3 c3 n4 c4 n5 c5 :
  has_column "county_name" raw = true ->
  other_columns raw = [(n1, c1); (n2, c2); (n3, c3); (n4, c4); (n5, c5)] ->
  load_hourly astype_str astype_int raw
  = match mapM astype_int c2 with
    | Some hours => Loaded (loaded_hourly (nrows raw) c1 c3 c4 c5 hours)
    | None => Fails NotAnInteger
    end.
Proof.
  intros Hname Hcols. unfold load_hourly, drop_column. rewrite Hname.
  cbn [then_load]. fold (other_columns raw). rewrite Hcols.
  unfold set_columns.
  cbn [cols nrows hourly_names length Nat.eqb combine List.map snd fst then_load].
  destruct strip_lower_hourly_names as (-> & -> & -> & -> & ->).
  unfold update_column, hour_column. cbn.
  destruct (mapM astype_int c2); reflexivity.
Qed.

Lemma load_hourly_count (raw : frame) :
  has_column "county_name" raw = true ->
  length (other_columns raw) <> 5%nat ->
  load_hourly astype_str astype_int raw
  = Fails (LengthMismatch (length (other_columns raw)) 5).
Proof.
  intros Hname Hlen. unfold load_hourly, drop_column. rewrite Hname.
  cbn [then_load]. fold (other_columns raw).
  unfold set_columns. cbn [cols nrows hourly_names length].
  destruct (Nat.eqb_spec 5 (length (other_columns raw))) as [E|E]; [lia|].
  reflexivity.
Qed.

Lemma load_hourly_no_name (raw : frame) :
  has_column "county_name" raw = false ->
  load_hourly astype_str astype_int raw = Fails (MissingColumn "county_name").
Proof.
  intros Hname. unfold load_hourly, drop_column. now rewrite Hname.
Qed.

Lemma five_columns (l : list (string * series)) :
  length l = 5%nat ->
  exists n1 c1 n2 c2 n3 c3 n4 c4 n5 c5,
    l = [(n1, c1); (n2, c2); (n3, c3); (n4, c4); (n5, c5)].
Proof.
  destruct l as [|[n1 c1] [|[n2 c2] [|[n3 c3] [|[n4 c4] [|[n5 c5] [|? ?]]]]]];
    try discriminate.
  intros _. now exists n1, c1, n2, c2, n3, c3, n4, c4, n5, c5.
Qed.

(** X24: what [load_hourly] does with any raw table.  It raises a
    KeyError when there is no county_name column; a length mismatch when
    the columns other than county_name are not exactly five; the cast's
    error when an entry of the second of them is not an integer.
    Otherwise it returns the five columns under the fixed names, whatever
    they were called in the file, with the rows of the raw table. *)
Theorem load_hourly_outcome (raw : frame) :
  match load_hourly astype_str astype_int raw with
  | Fails (MissingColumn label) =>
      label = "county_name"%string /\ has_column "county_name" raw = false
  | Fails (LengthMismatch have want) =>
      has_column "county_name" raw = true
      /\ have = length (other_columns raw) /\ want = 5%nat /\ have <> 5%nat
  | Fails NotAnInteger =>
      has_column "county_name" raw = true
      /\ length (other_columns raw) = 5%nat
      /\ exists hour, List.nth_error (List.map snd (other_columns raw)) 1 = Some hour
                       /\ mapM astype_int hour = None
  | Loaded df =>
      has_column "county_name" raw = true
      /\ length (other_columns raw) = 5%nat
      /\ column_names df = hourly_names
      /\ nrows df = nrows raw
      /\ exists hour hours,
           List.nth_error (List.map snd (other_columns raw)) 1 = Some hour
           /\ mapM astype_int hour = Some hours
           /\ lookup_col "hour" (cols df) = Some (List.map Int hours)
  end.
Proof.
  destruct (has_column "county_name" raw) eqn:Hname.
  - destruct (Nat.eq_dec (length (other_columns raw)) 5%nat) as [Hlen|Hlen].
    + destruct (five_columns _ Hlen)
        as (n1 & c1 & n2 & c2 & n3 & c3 & n4 & c4 & n5 & c5 & Hcols).
      rewrite (load_hourly_five raw _ _ _ _ _ _ _ _ _ _ Hname Hcols).
      rewrite Hcols. cbn [List.map snd List.nth_error].
      destruct (mapM astype_int c2) as [hours|] eqn:Hh.
      * repeat split. exists c2, hours. repeat split. exact Hh.
      * repeat split. exists c2. split; [reflexivity|exact Hh].
    + rewrite (load_hourly_count raw Hname Hlen). repeat split. exact Hlen.
  - rewrite (load_hourly_no_name raw Hname). split; reflexivity.
Qed.

(** X25: on a raw table with a county_name column and five others whose
    second casts to integers, [load_hourly] returns exactly the five
    columns by position under the fixed names.  A county that is missing
    stays missing and every other county is a text of at least five
    characters, every hour is an integer, and every entry of the three
    measure columns is a number that is not missing. *)
Theorem load_hourly_columns (raw : frame) n1 c1 n2 c2 n3 c3 n4 c4 n5 c5 hours :
  has_column "county_name" raw = true ->
  other_columns raw = [(n1, c1); (n2, c2); (n3, c3); (n4, c4); (n5, c5)] ->
  mapM astype_int c2 = Some hours ->
  exists df,
    load_hourly astype_str astype_int raw = Loaded df
    /\ cols df
       = [ ("county"%string, List.map (zfill_entry astype_str) c1);
           ("hour"%string, List.map Int hours);
           ("des_demand"%string, List.map (fun v => fillna0 (to_numeric_coerce v)) c3);
           ("undes_demand"%string, List.map (fun v => fillna0 (to_numeric_coerce v)) c4);
           ("supply"%string, List.map (fun v => fillna0 (to_numeric_coerce v)) c5) ]
    /\ Forall2 (fun v v' =>
                  match v with
                  | Num x =>
                      if PrimFloat.is_nan x then v' = Num nan
                      else v' = Text (zfill 5 (astype_str v))
                           /\ (5 <= length (zfill 5 (astype_str v)))%nat
                  | _ =>
                      v' = Text (zfill 5 (astype_str v))
                      /\ (5 <= length (zfill 5 (astype_str v)))%nat
                  end) c1 (List.map (zfill_entry astype_str) c1)
    /\ (forall c s, In c ["des_demand"; "undes_demand"; "supply"]%string ->
          lookup_col c (cols df) = Some s -> Forall filled_number s).
Proof.
  intros Hname Hcols Hh.
  exists (loaded_hourly (nrows raw) c1 c3 c4 c5 hours).
  rewrite (load_hourly_five raw _ _ _ _ _ _ _ _ _ _ Hname Hcols), Hh.
  split; [reflexivity|]. split; [reflexivity|]. split.
  - clear Hcols. induction c1 as [|v c1 IH]; constructor; [|exact IH].
    destruct (zfill_entry_cases astype_str v) as [[Hna ->]|[Hna [-> Hlen]]];
      destruct v as [x| | |]; cbn [isna] in Hna; try discriminate Hna;
      try rewrite Hna; auto.
  - intros c s Hc Hs.
    assert (Hmap : exists src, s = List.map (fun v => fillna0 (to_numeric_coerce v)) src).
    { cbn in Hc. destruct Hc as [<-|[<-|[<-|[]]]]; cbn in Hs; injection Hs as <-; eauto. }
    destruct Hmap as [src ->]. apply List.Forall_forall. intros v Hv.
    apply List.in_map_iff in Hv as [v0 [<- _]].
    rewrite coerce_fill_spec. apply zero_if_filled.
Qed.

End Hourly_loader.

Lemma load_hourly_columns_witness :
  exists df,
    load_hourly str_of_cell int_of_cell (RT := simple_runtime) raw_hourly = Loaded df
    /\ cols df
       = [ ("county"%string, [Text (U "01001"); Text (U "18097"); Num nan]);
           ("hour"%string, [Int 7; Int 8; Int 8]);
           ("des_demand"%string, [Num 2.5%float; Num 0%float; Num 1%float]);
           ("undes_demand"%string, [Num 0%float; Num 1%float; Num 1%float]);
           ("supply"%string, [Num 4%float; Num 4%float; Num 6%float]) ].
Proof.
  destruct (load_hourly_columns str_of_cell int_of_cell (RT := simple_runtime)
              raw_hourly _ _ _ _ _ _ _ _ _ _ [7; 8; 8]%Z eq_refl eq_refl eq_refl)
    as (df & Hload & Hcols & _).
  exists df. split; [exact Hload|]. rewrite Hcols.
  vm_compute. reflexivity.
Defined.

End LoaderFacts.
